(** * SaSSHimi, package [server]: the tunnel dispatcher, opening and shutdown

    A shallow embedding of [server/server.go].  The tunnel is a record holding
    the fields of [common.ChannelForwarder] that the file touches; goroutine
    bodies are state transformers over it, and every externally visible action
    (lock operations, registry accesses, calls on a [*common.Client], log lines,
    SSH calls) is appended to a trace kept in the state, so that the order and
    the number of the calls can be stated. *)

From Stdlib Require Import Strings.Byte ZArith.
From stdpp Require Import base option list strings functions gmap.

Open Scope string_scope.
Open Scope list_scope.

(** ** Data model *)

(** Go's [error]: [nil] or a value carrying a message. *)
Definition error := option string.
Definition errors_New (s : string) : error := Some s.

(** [common.DataMessage], with the fields [server.go] reads. *)
Record DataMessage := {
  ClientId : string;
  Data : list byte;
  CloseClient : bool;
  DeadClient : bool;
  KeepAlive : bool;
}.

(** The frame invariant of the data model: at most one control flag is set. *)
Definition frame_invariant (msg : DataMessage) : bool :=
  match KeepAlive msg, CloseClient msg, DeadClient msg with
  | true, false, false | false, true, false | false, false, true
  | false, false, false => true
  | _, _, _ => false
  end.

(** A data-bearing frame has no flag set. *)
Definition data_frame (msg : DataMessage) : bool :=
  negb (KeepAlive msg) && negb (CloseClient msg) && negb (DeadClient msg).

(** The four frames that satisfy the invariant. *)
Module Frame.
Definition data (id : string) (payload : list byte) : DataMessage :=
  {| ClientId := id; Data := payload; CloseClient := false;
     DeadClient := false; KeepAlive := false |}.
Definition closeRequest (id : string) : DataMessage :=
  {| ClientId := id; Data := []; CloseClient := true;
     DeadClient := false; KeepAlive := false |}.
Definition closeAck (id : string) : DataMessage :=
  {| ClientId := id; Data := []; CloseClient := false;
     DeadClient := true; KeepAlive := false |}.
Definition keepAlive : DataMessage :=
  {| ClientId := ""; Data := []; CloseClient := false;
     DeadClient := false; KeepAlive := true |}.
End Frame.

(** A [*common.Client] is an address; the object behind it lives in the
    tunnel's store, so that the registry, the dispatcher and the connection's
    read loop all see the same object. *)
Abbreviation loc := positive.

(** The methods of [common.Client] called by [server.go].  The type is
    declared in package [common]; the dispatcher is verified against any
    implementation of this interface. *)
Class ClientOps (C : Type) := {
  Write : list byte → C → C * error;
  Close : C → C;
  Terminate : C → C;
  NotifyEOF : bool → C → C;
  IsDead : C → bool;
}.

Inductive method :=
| mWrite (data : list byte)
| mClose
| mTerminate
| mNotifyEOF (isError : bool)
| mIsDead.

Inductive level := Debug | Notice | Warning | Error | Fatal.

(** What a [select] over [<-tunnel.NotifyClosure] and [<-time.After(d)] takes:
    the closure notification, or the timer when none came within [d]. *)
Inductive select_outcome := Closure | Timeout.

(** The SSH sessions of the file: the one of [uploadForwarder], the one kept
    in [t.sshSession], and the subprocess of the transparent mode. *)
Inductive session := uploadSession | sshSession | transparentCmd.

(** [time.Duration] counts nanoseconds. *)
Definition Duration := Z.
Definition Second : Duration := 1000000000%Z.

Inductive event :=
| EvLock
| EvUnlock
| EvLookup (id : string)
| EvDelete (id : string)
| EvInsert (id : string) (client : loc)
| EvCall (client : loc) (m : method)
| EvLog (l : level) (args : list string)
| EvNewClient (client : loc)
| EvGo (goroutine : string)
| EvSetChannelOpen (b : bool)
| EvNotifyClosure
| EvTermiosRestore
| EvForwarderTerminate
| EvSelect (grace : Duration) (o : select_outcome)
| EvSignal (s : session) (sig : string)
| EvSessionClose (s : session)
| EvSshClientClose
| EvListenerClose
| EvPrint (args : list string)
| EvReadPassword
| EvDial (addr : string) (user : string)
| EvNewSession (s : session)
| EvOpen (path : string)
| EvRun (s : session) (command : string)
| EvCommand (argv0 : string) (args : list string).

(** The tunnel: the [ChannelForwarder] fields used here, the store of client
    objects, and the trace. *)
Record tunnel (C : Type) := mkTunnel {
  ChannelOpen : bool;
  Clients : gmap string loc;
  heap : loc → C;
  trace : list event;
  (** whether [t.sshClient] and [t.sshSession] are set: [false] while the
      pointer is [nil] *)
  has_sshClient : bool;
  has_sshSession : bool;
}.
Arguments mkTunnel {C}.
Arguments ChannelOpen {C}.
Arguments Clients {C}.
Arguments heap {C}.
Arguments trace {C}.
Arguments has_sshClient {C}.
Arguments has_sshSession {C}.

(** What one [ln.Accept()] followed by [common.NewClient] yields: an error, or
    the remote address of the connection with the new client object, its
    address and its [Id]. *)
Inductive accept_result (C : Type) :=
| AcceptErr (e : string)
| Accepted (addr : string) (client : loc) (obj : C) (Id : string).
Arguments AcceptErr {C}.
Arguments Accepted {C}.

(** How a call ends: it returns an error value, the process exits
    ([Logger.Fatalf]), the goroutine panics, or it stays blocked. *)
Inductive outcome :=
| Returns (err : error)
| Exits
| Panics
| Blocks.

(** The configuration keys read through viper. *)
Record config := {
  RemoteHost : string;
  User : string;
  Password : string;
  PrivateKey : string;
  RemoteExecutable : string;
  RemoteAgentPath : string;
}.

(** The results of the calls into the environment made while a tunnel is
    opened, each named after the call. *)
Record world := {
  viper : config;
  os_Executable : string;
  (** the [Name] of [user2.Current()], [None] when the call fails *)
  user_Current : option string;
  ReadPassword : string;
  EscapeBashArgument : string → string;
  ReadFile_err : error;
  ParsePrivateKey_err : error;
  Dial_err : error;
  upload_NewSession_err : error;
  Open_err : error;
  upload_Run_err : error;
  NewSession_err : error;
  StdinPipe_err : error;
  StdoutPipe_err : error;
  Run_err : error;
  (** whether a goroutine receives from the unbuffered [NotifyClosure] *)
  closure_received : bool;
}.

(** ** A state monad over the tunnel *)

Definition M (C A : Type) : Type := tunnel C → A * tunnel C.

#[global] Instance M_ret {C} : MRet (M C) := λ A a t, (a, t).
#[global] Instance M_bind {C} : MBind (M C) :=
  λ A B f m t, let '(a, t') := m t in f a t'.

Definition exec {C A} (m : M C A) (t : tunnel C) : tunnel C := (m t).2.

Section Primitives.
Context {C : Type} `{!ClientOps C}.

Definition emit (e : event) : M C unit := λ t,
  (tt, mkTunnel (ChannelOpen t) (Clients t) (heap t) (trace t ++ [e])
           (has_sshClient t) (has_sshSession t)).

Definition Logger (l : level) (args : list string) : M C unit :=
  emit (EvLog l args).

Definition ClientsLock_Lock : M C unit := emit EvLock.
Definition ClientsLock_Unlock : M C unit := emit EvUnlock.

(** [client, prs := t.Clients[id]] *)
Definition Clients_lookup (id : string) : M C (option loc) := λ t,
  (Clients t !! id,
   mkTunnel (ChannelOpen t) (Clients t) (heap t) (trace t ++ [EvLookup id])
       (has_sshClient t) (has_sshSession t)).

(** [delete(t.Clients, id)] *)
Definition Clients_delete (id : string) : M C unit := λ t,
  (tt, mkTunnel (ChannelOpen t) (delete id (Clients t)) (heap t)
                (trace t ++ [EvDelete id])
                (has_sshClient t) (has_sshSession t)).

(** [t.Clients[id] = client] *)
Definition Clients_insert (id : string) (client : loc) : M C unit := λ t,
  (tt, mkTunnel (ChannelOpen t) (<[id := client]> (Clients t)) (heap t)
                (trace t ++ [EvInsert id client])
           (has_sshClient t) (has_sshSession t)).

(** A method call that updates the object behind [client]. *)
Definition call (client : loc) (m : method) (f : C → C) : M C unit := λ t,
  (tt, mkTunnel (ChannelOpen t) (Clients t)
                (<[client := f (heap t client)]> (heap t))
                (trace t ++ [EvCall client m])
                (has_sshClient t) (has_sshSession t)).

Definition client_Close (client : loc) : M C unit :=
  call client mClose Close.
Definition client_Terminate (client : loc) : M C unit :=
  call client mTerminate Terminate.
Definition client_NotifyEOF (client : loc) (isError : bool) : M C unit :=
  call client (mNotifyEOF isError) (NotifyEOF isError).

Definition client_IsDead (client : loc) : M C bool := λ t,
  (IsDead (heap t client),
   mkTunnel (ChannelOpen t) (Clients t) (heap t)
            (trace t ++ [EvCall client mIsDead])
       (has_sshClient t) (has_sshSession t)).

Definition client_Write (client : loc) (data : list byte) : M C error := λ t,
  let '(c, err) := Write data (heap t client) in
  (err, mkTunnel (ChannelOpen t) (Clients t) (<[client := c]> (heap t))
                 (trace t ++ [EvCall client (mWrite data)])
            (has_sshClient t) (has_sshSession t)).

(** ** [handleClients]: the dispatcher *)

(** One iteration of the loop, for the frame [msg] taken from
    [t.InChannel]. *)
Definition handleClients_body (msg : DataMessage) : M C unit :=
  if KeepAlive msg then mret tt
  else
    ClientsLock_Lock;;
    r ← Clients_lookup (ClientId msg);
    match r with
    | None =>
        Logger Warning ["Received data from closed client"; ClientId msg]
    | Some client =>
        if DeadClient msg then
          client_NotifyEOF client false;;
          client_Terminate client;;
          Clients_delete (ClientId msg)
        else if CloseClient msg then
          client_Close client;;
          Clients_delete (ClientId msg)
        else
          dead ← client_IsDead client;
          if negb dead then
            err ← client_Write client (Data msg);
            match err with
            | Some e =>
                client_Terminate client;;
                client_NotifyEOF client true;;
                Logger Error ["Error Writing: %s\n"; e]
            | None => mret tt
            end
          else mret tt
    end;;
    ClientsLock_Unlock.

(** [for t.ChannelOpen { msg := <-t.InChannel; ... }], run on the frames
    queued in [InChannel]; on an empty queue the receive blocks and the run
    ends. *)
Fixpoint handleClients (InChannel : list DataMessage) (t : tunnel C)
  : tunnel C :=
  if ChannelOpen t then
    match InChannel with
    | [] => t
    | msg :: rest => handleClients rest (exec (handleClients_body msg) t)
    end
  else t.

(** ** The accept loop of [Run] and [RunTransparent] *)

(** [common.NewClient(...)]: a freshly allocated object behind [client]. *)
Definition NewClient (client : loc) (obj : C) : M C unit := λ t,
  (tt, mkTunnel (ChannelOpen t) (Clients t) (<[client := obj]> (heap t))
                (trace t ++ [EvNewClient client])
           (has_sshClient t) (has_sshSession t)).

(** One iteration of [for tunnel.ChannelOpen { conn, err := ln.Accept() ... }];
    the result is [false] when [utils.Logger.Fatalf] ended the process.  The
    loop of [RunTransparent] is the same, up to the spelling of the log
    line. *)
Definition Run_accept_body (r : accept_result C) : M C bool :=
  match r with
  | AcceptErr e =>
      Logger Fatal ["Error in conncetion accept: %s"; e];;
      mret false
  | Accepted addr client obj Id =>
      Logger Debug ["New connection from "; addr];;
      NewClient client obj;;
      Clients_insert Id client;;
      emit (EvGo "ReadFromClientToChannel");;
      mret true
  end.

Fixpoint Run_accept_loop (accepts : list (accept_result C)) (t : tunnel C)
  : tunnel C :=
  if ChannelOpen t then
    match accepts with
    | [] => t
    | r :: rest =>
        let '(alive, t') := Run_accept_body r t in
        if alive then Run_accept_loop rest t' else t'
    end
  else t.

(** ** Shutdown: the [onExit] closure of [Run] *)

(** [ssh.SIGTERM] *)
Definition SIGTERM : string := "TERM".

(** The two waits of [onExit], [5 * time.Second] each. *)
Definition grace_period : Duration := (5 * Second)%Z.

(** A call through [tunnel.sshSession] or [tunnel.sshClient]: the method
    reads through the pointer, so it panics while the pointer is [nil];
    [k] is what follows the call.  The result is [false] for a panic. *)
Definition through (set : tunnel C → bool) (e : event) (k : M C bool)
  : M C bool := λ t,
  if set t then (emit e;; k) t else (false, t).

(** [o1] and [o2] are what the first and the second [select] take; the
    result is [true] when the closure runs to its end and [false] when it
    panics.  [tunnel.Terminate()] is the forwarder's method, of package
    [common]. *)
Definition onExit (o1 o2 : select_outcome) : M C bool :=
  emit EvTermiosRestore;;
  emit EvForwarderTerminate;;
  Logger Notice ["Waiting to remote process to clean up..."];;
  emit (EvSelect grace_period o1);;
  let closing : M C bool :=
    through has_sshClient EvSshClientClose (
      emit EvListenerClose;;
      mret true) in
  let second_wait : M C bool :=
    emit (EvSelect grace_period o2);;
    match o2 with
    | Closure => closing
    | Timeout =>
        Logger Error ["Remote process don't respond. Force close channel."];;
        Logger Error ["IMPORTANT: This might leave files in remote host."];;
        through has_sshSession (EvSessionClose sshSession) closing
    end in
  match o1 with
  | Closure => second_wait
  | Timeout =>
      through has_sshSession (EvSignal sshSession SIGTERM) (
        Logger Warning ["Remote close timeout. Sending TERM signal."];;
        second_wait)
  end.

(** ** Opening the tunnel *)

Definition strings_Contains (s sub : string) : bool :=
  match String.index 0 sub s with Some _ => true | None => false end.

Fixpoint strings_Repeat (s : string) (count : nat) : string :=
  match count with
  | O => ""
  | S n => s +:+ strings_Repeat s n
  end.

Definition getRemoteHost (w : world) : M C string :=
  let remoteHost := RemoteHost (viper w) in
  let remoteHost :=
    if negb (strings_Contains remoteHost ":") then remoteHost +:+ ":22"
    else remoteHost in
  Logger Debug ["SSH Remote Host:"; remoteHost];;
  mret remoteHost.

(** [getUsername]: [None] when [user.Name] is read through the [nil] user
    that a failed [user2.Current()] leaves, which panics. *)
Definition getUsername (w : world) : M C (option string) :=
  let user := User (viper w) in
  if String.eqb user "" then mret (user_Current w)
  else
    Logger Debug ["SSH User:"; user];;
    mret (Some user).

Definition getRemoteExecutable (w : world) : M C string :=
  let remoteExecutable := RemoteExecutable (viper w) in
  let remoteExecutable :=
    if String.eqb remoteExecutable "" then os_Executable w
    else remoteExecutable in
  Logger Debug ["Remote Executable:"; remoteExecutable];;
  mret remoteExecutable.

Definition getRemoteAgentPath (w : world) : M C string :=
  let remoteAgentPath := RemoteAgentPath (viper w) in
  let remoteAgentPath :=
    if String.eqb remoteAgentPath "" then "." else remoteAgentPath in
  Logger Debug ["Remote install path:"; remoteAgentPath];;
  mret remoteAgentPath.

(** [getPassword]: [None] when the prompt panics in [getUsername]. *)
Definition getPassword (w : world) : M C (option string) :=
  let password := Password (viper w) in
  if String.eqb password "" then
    user ← getUsername w;
    match user with
    | None => mret None
    | Some user =>
        remoteHost ← getRemoteHost w;
        emit (EvPrint ["%s@%s's password: "; user; remoteHost]);;
        emit EvReadPassword;;
        emit (EvPrint [""]);;
        mret (Some (ReadPassword w))
    end
  else mret (Some password).

(** [getPublicKey]: [Some false] for the [nil] signer, [Some true] for a
    signer, [None] when [Logger.Fatalf] ended the process. *)
Definition getPublicKey (w : world) : M C (option bool) :=
  if String.eqb (PrivateKey (viper w)) "" then mret (Some false)
  else
    match ReadFile_err w with
    | Some e => Logger Fatal ["unable to read private key: %v"; e];; mret None
    | None =>
        match ParsePrivateKey_err w with
        | Some e =>
            Logger Fatal ["unable to parse private key: %v"; e];; mret None
        | None => mret (Some true)
        end
    end.

(** [err == nil] *)
Definition is_nil (err : error) : bool :=
  match err with None => true | Some _ => false end.

(** [if err != nil { return errors.New(prefix + err.Error()) }] *)
Definition check (err : error) (prefix : string) (k : M C outcome)
  : M C outcome :=
  match err with
  | Some e => mret (Returns (errors_New (prefix +:+ e)))
  | None => k
  end.

(** [defer f()]: [f] runs when the function returns or panics. *)
Definition defer (e : event) (body : M C outcome) : M C outcome :=
  o ← body;
  match o with
  | Returns _ | Panics => emit e;; mret o
  | Exits | Blocks => mret o
  end.

(** [session, err := NewSession(); defer session.Close()], the deferred call
    being registered before [err] is tested: when the function returns or
    panics, [Close] runs on the session, and on the [nil] session that a
    failed [NewSession] leaves it panics, whatever was being returned. *)
Definition defer_session_Close (s : session) (err : error)
    (body : M C outcome) : M C outcome :=
  o ← body;
  match o with
  | Returns _ | Panics =>
      match err with
      | None => emit (EvSessionClose s);; mret o
      | Some _ => mret Panics
      end
  | Exits | Blocks => mret o
  end.

Definition uploadForwarder (w : world) (remoteAgentPath : string)
  : M C outcome :=
  emit (EvNewSession uploadSession);;
  defer_session_Close uploadSession (upload_NewSession_err w) (
    check (upload_NewSession_err w) "Failed to create session: " (
      remoteExecutable ← getRemoteExecutable w;
      emit (EvOpen remoteExecutable);;
      check (Open_err w) "Failed to open current binary " (
        let remoteAgentPathEscaped := EscapeBashArgument w remoteAgentPath in
        let command :=
          "cd " +:+ remoteAgentPathEscaped
                +:+ " && cat > ./.daemon && chmod +x ./.daemon" in
        emit (EvRun uploadSession command);;
        mret (Returns (upload_Run_err w))))).

(** [t.sshClient, err = ssh.Dial(...)]: the field is [nil] on an error. *)
Definition set_sshClient (err : error) : M C unit := λ t,
  (tt, mkTunnel (ChannelOpen t) (Clients t) (heap t) (trace t)
                (is_nil err) (has_sshSession t)).

(** [t.sshSession, err = t.sshClient.NewSession()] *)
Definition set_sshSession (err : error) : M C unit := λ t,
  (tt, mkTunnel (ChannelOpen t) (Clients t) (heap t) (trace t)
                (has_sshClient t) (is_nil err)).

Definition set_ChannelOpen (b : bool) : M C unit := λ t,
  (tt, mkTunnel b (Clients t) (heap t) (trace t ++ [EvSetChannelOpen b])
           (has_sshClient t) (has_sshSession t)).

(** [t.NotifyClosure <- struct{}{}] on the unbuffered channel made by
    [newTunnel]: the send completes when a receiver takes the value. *)
Definition send_NotifyClosure (w : world) (k : M C outcome) : M C outcome :=
  if closure_received w then emit EvNotifyClosure;; k
  else mret Blocks.

Definition openTransparentTunnel (w : world) (cmd : list string)
  : M C outcome :=
  match cmd with
  | [] => mret Panics
  | argv0 :: args =>
      emit (EvCommand argv0 args);;
      emit (EvGo "ReadInputData");;
      emit (EvGo "WriteOutputData");;
      Logger Notice ["Transparent Tunnel Opening"];;
      emit (EvRun transparentCmd argv0);;
      check (Run_err w) "Run transparent command error: " (
        set_ChannelOpen false;;
        send_NotifyClosure w (
          mret (Returns (errors_New "Remote process is dead"))))
  end.

Definition openTunnel (w : world) (verboseLevel : Z) : M C outcome :=
  pkSigner ← getPublicKey w;
  match pkSigner with
  | None => mret Exits
  | Some _ =>
      password ← getPassword w;
      match password with
      | None => mret Panics
      | Some _ =>
      user ← getUsername w;
      match user with
      | None => mret Panics
      | Some user =>
      remoteHost ← getRemoteHost w;
      emit (EvDial remoteHost user);;
      set_sshClient (Dial_err w);;
      check (Dial_err w) "Dial error: " (
        defer EvSshClientClose (
          remoteAgentPath ← getRemoteAgentPath w;
          up ← uploadForwarder w remoteAgentPath;
          match up with
          | Returns err =>
              check err "Failed to upload forwarder " (
                emit (EvNewSession sshSession);;
                set_sshSession (NewSession_err w);;
                defer_session_Close sshSession (NewSession_err w) (
                  check (NewSession_err w) "Failed to create session: " (
                  check (StdinPipe_err w)
                        "Failed to pipe STDIN on session: " (
                  check (StdoutPipe_err w)
                        "Failed to pipe STDOUT on session: " (
                    emit (EvGo "ReadInputData");;
                    emit (EvGo "WriteOutputData");;
                    Logger Notice ["SSH Tunnel Open"];;
                    if (verboseLevel <? 0)%Z then mret Panics
                    else
                      let commandOps :=
                        if (verboseLevel =? 0)%Z then ""
                        else "-" +:+ strings_Repeat "v"
                                                    (Z.to_nat verboseLevel) in
                      let remoteAgentPathEscaped :=
                        EscapeBashArgument w remoteAgentPath in
                      let runCommand :=
                        "cd " +:+ remoteAgentPathEscaped
                              +:+ " && ./.daemon agent " +:+ commandOps in
                      emit (EvRun sshSession runCommand);;
                      set_ChannelOpen false;;
                      send_NotifyClosure w (
                        mret (Returns
                                (errors_New "Remote process is dead"))))))))
          | other => mret other
          end))
      end
      end
  end.

(** The steps that precede the remote command all succeed: the private key,
    when one is configured, is read and parsed, the user name is configured
    or known to the system, and the dial, the upload and the session with its
    two pipes raise no error. *)
Definition established (w : world) : bool :=
  (String.eqb (PrivateKey (viper w)) ""
   || is_nil (ReadFile_err w) && is_nil (ParsePrivateKey_err w))
  && (negb (String.eqb (User (viper w)) "")
      || negb (is_nil (user_Current w)))
  && is_nil (Dial_err w)
  && is_nil (upload_NewSession_err w) && is_nil (Open_err w)
  && is_nil (upload_Run_err w)
  && is_nil (NewSession_err w) && is_nil (StdinPipe_err w)
  && is_nil (StdoutPipe_err w).

(** A computation that, whatever the tunnel it starts from, does not return
    the [nil] error. *)
Definition never_nil (m : M C outcome) : Prop :=
  ∀ t, (m t).1 ≠ Returns None.

(** ** Reading the trace *)

Fixpoint count_ev (p : event → bool) (es : list event) : nat :=
  match es with
  | [] => 0
  | e :: es' => (if p e then 1 else 0) + count_ev p es'
  end.

Definition is_delete (id : string) (e : event) : bool :=
  match e with EvDelete id' => bool_decide (id' = id) | _ => false end.

Definition is_lookup (e : event) : bool :=
  match e with EvLookup _ => true | _ => false end.

Definition is_mutation (e : event) : bool :=
  match e with EvDelete _ | EvInsert _ _ => true | _ => false end.

(** A socket write is the blocking I/O made on behalf of the registry. *)
Definition is_blocking_io (e : event) : bool :=
  match e with EvCall _ (mWrite _) => true | _ => false end.

Definition is_signal (sig : string) (e : event) : bool :=
  match e with
  | EvSignal sshSession sig' => bool_decide (sig' = sig)
  | _ => false
  end.

Definition is_session_close (e : event) : bool :=
  match e with EvSessionClose sshSession => true | _ => false end.

Definition is_log (args : list string) (e : event) : bool :=
  match e with EvLog _ args' => bool_decide (args' = args) | _ => false end.

Definition is_notify_closure (e : event) : bool :=
  match e with EvNotifyClosure => true | _ => false end.

(** [guarded p held es]: along [es], started with the registry lock held or
    not, every event satisfying [p] happens while the lock is held. *)
Fixpoint guarded (p : event → bool) (held : bool) (es : list event) : bool :=
  match es with
  | [] => true
  | EvLock :: es' => guarded p true es'
  | EvUnlock :: es' => guarded p false es'
  | e :: es' => implb (p e) held && guarded p held es'
  end.

(** [lock_free p held es]: every event satisfying [p] happens while the lock
    is not held. *)
Fixpoint lock_free (p : event → bool) (held : bool) (es : list event) : bool :=
  match es with
  | [] => true
  | EvLock :: es' => lock_free p true es'
  | EvUnlock :: es' => lock_free p false es'
  | e :: es' => implb (p e) (negb held) && lock_free p held es'
  end.

Definition is_Lock (e : event) : bool :=
  match e with EvLock => true | _ => false end.

Definition is_Unlock (e : event) : bool :=
  match e with EvUnlock => true | _ => false end.

(** [well_locked held es]: along [es], the lock is taken only while free and
    released only while held, and every other event happens while it is
    held. *)
Fixpoint well_locked (held : bool) (es : list event) : bool :=
  match es with
  | [] => true
  | EvLock :: es' => negb held && well_locked true es'
  | EvUnlock :: es' => held && well_locked false es'
  | _ :: es' => held && well_locked held es'
  end.

(** Whether the lock is held after [es]. *)
Fixpoint held_after (held : bool) (es : list event) : bool :=
  match es with
  | [] => held
  | EvLock :: es' => held_after true es'
  | EvUnlock :: es' => held_after false es'
  | _ :: es' => held_after held es'
  end.

End Primitives.

(** ** A logical connection, for running the dispatcher on concrete inputs *)

Module SpecClient.

(** Modelled from the spec: [common.Client] (package [common] is not part of
    [server.go]).  States [active], [halfClosedLocal], [terminated]; [write]
    writes the payload to the socket and fails when the socket write fails;
    [close] closes the socket; [terminate] closes the socket and moves to
    [terminated], idempotently; [notifyEOF] wakes the read loop with its flag;
    [isDead] holds once [halfClosedLocal] or [terminated]. *)
Inductive conn_state := active | halfClosedLocal | terminated.

(** Modelled from the spec: the logical connection, with its socket. *)
Record Client := mkClient {
  state : conn_state;
  socket_open : bool;
  (** the peer of the socket still accepts bytes *)
  socket_writable : bool;
  written : list byte;
  eof_notified : option bool;
}.

(** Modelled from the spec: [write(payload)] of the logical connection. *)
Definition write (payload : list byte) (c : Client) : Client * error :=
  if socket_open c && socket_writable c then
    (mkClient (state c) (socket_open c) (socket_writable c)
              (written c ++ payload) (eof_notified c), None)
  else (c, Some "WriteError").

(** Modelled from the spec: [close()]. *)
Definition close (c : Client) : Client :=
  mkClient (state c) false (socket_writable c) (written c) (eof_notified c).

(** Modelled from the spec: [terminate()]. *)
Definition terminate (c : Client) : Client :=
  mkClient terminated false (socket_writable c) (written c) (eof_notified c).

(** Modelled from the spec: [notifyEOF(isError)]. *)
Definition notifyEOF (isError : bool) (c : Client) : Client :=
  mkClient (state c) (socket_open c) (socket_writable c) (written c)
           (Some isError).

(** Modelled from the spec: [isDead()]. *)
Definition isDead (c : Client) : bool :=
  match state c with active => false | _ => true end.

#[global] Instance ops : ClientOps Client := {|
  Write := write;
  Close := close;
  Terminate := terminate;
  NotifyEOF := notifyEOF;
  IsDead := isDead;
|}.

Definition fresh : Client := mkClient active true true [] None.
Definition broken : Client := mkClient active true false [] None.
Definition half_closed : Client := mkClient halfClosedLocal true true [] None.

End SpecClient.

(** ** Concrete tunnels and frames *)

Module Sample.
Import SpecClient.

Definition PING : list byte := [x50; x49; x4e; x47].

(** A tunnel just made by [newTunnel]. *)
Definition empty_tunnel : tunnel Client :=
  mkTunnel true ∅ (λ _, fresh) [] false false.

(** An established tunnel with one registered connection ["c1"], whose
    object is [c]. *)
Definition one (c : Client) : tunnel Client :=
  mkTunnel true {[ "c1" := 1%positive ]} (λ _, c) [] true true.

Definition quiet_config : config :=
  {| RemoteHost := "example.org"; User := ""; Password := "";
     PrivateKey := "";
     RemoteExecutable := ""; RemoteAgentPath := "" |}.

(** Every call succeeds and the shutdown path takes the notification. *)
Definition calm : world :=
  {| viper := quiet_config; os_Executable := "/usr/bin/sasshimi";
     user_Current := Some "Alice"; ReadPassword := "secret";
     EscapeBashArgument := λ s, "'" +:+ s +:+ "'";
     ReadFile_err := None; ParsePrivateKey_err := None; Dial_err := None;
     upload_NewSession_err := None; Open_err := None; upload_Run_err := None;
     NewSession_err := None; StdinPipe_err := None; StdoutPipe_err := None;
     Run_err := None; closure_received := true |}.

End Sample.

(** ** Constructors of the tunnel *)

Section Constructors.
Context {C : Type} `{!ClientOps C}.

(** [newTunnel]: the channel is open and the registry is the empty map made
    by [make(map[string]*common.Client)]; [store] is the memory in which the
    client objects will be allocated.  The queues, the lock and the
    notification channel are fresh as well. *)
Definition newTunnel (store : loc → C) : tunnel C :=
  mkTunnel true ∅ store [] false false.

(** [newTransparentTunnel] builds the same forwarder; the command it keeps is
    the argument of [openTransparentTunnel]. *)
Definition newTransparentTunnel (store : loc → C) : tunnel C :=
  mkTunnel true ∅ store [] false false.

(** ** More readers of the trace *)

Definition session_eqb (s1 s2 : session) : bool :=
  match s1, s2 with
  | uploadSession, uploadSession | sshSession, sshSession
  | transparentCmd, transparentCmd => true
  | _, _ => false
  end.

Definition is_new_session_of (s : session) (e : event) : bool :=
  match e with EvNewSession s' => session_eqb s' s | _ => false end.

Definition is_close_of (s : session) (e : event) : bool :=
  match e with EvSessionClose s' => session_eqb s' s | _ => false end.

Definition is_run_of (s : session) (e : event) : bool :=
  match e with EvRun s' _ => session_eqb s' s | _ => false end.

Definition is_dial (e : event) : bool :=
  match e with EvDial _ _ => true | _ => false end.

Definition is_client_close (e : event) : bool :=
  match e with EvSshClientClose => true | _ => false end.

Definition is_listener_close (e : event) : bool :=
  match e with EvListenerClose => true | _ => false end.

Definition is_select (e : event) : bool :=
  match e with EvSelect _ _ => true | _ => false end.

Definition is_client_call (e : event) : bool :=
  match e with EvCall _ _ => true | _ => false end.

Definition is_warning (e : event) : bool :=
  match e with EvLog Warning _ => true | _ => false end.

End Constructors.

(** * Properties *)

(** ** Helpers *)

Lemma count_ev_app (p : event → bool) (es1 es2 : list event) :
  count_ev p (es1 ++ es2) = count_ev p es1 + count_ev p es2.
Proof.
  induction es1 as [|e es1 IH]; simpl; [done|].
  rewrite IH. lia.
Qed.

(** Flattens the nested appends that the primitives leave in a trace. *)
Ltac flatten_trace := rewrite <- ?(assoc_L (++)); simpl.

(** Runs a computation of the monad by value, so that each intermediate
    tunnel is built once; the strings and the trace are left as they are. *)
Ltac run_M :=
  cbv [exec onExit through Logger emit mbind mret M_bind M_ret
       ChannelOpen Clients heap trace has_sshClient has_sshSession
       fst snd].

(** Unfolds the dispatcher's primitives. *)
Ltac run_body :=
  unfold exec, handleClients_body, ClientsLock_Lock, ClientsLock_Unlock,
    Clients_lookup, Clients_delete, client_NotifyEOF, client_Terminate,
    client_Close, client_IsDead, client_Write, call, Logger, emit,
    mbind, mret, M_bind, M_ret in *; simpl in *.

(** ** keepAlive frames *)

(** C4. A frame with the keepAlive flag is skipped before the registry is
    looked at: the iteration leaves the whole tunnel as it was, so its trace
    gains neither a lock operation nor a lookup, the registry and every
    logical connection are unchanged, and the loop goes on with the next
    frame. *)
Theorem keepAlive_skipped `{ClientOps C} (msg : DataMessage) (t : tunnel C) :
  KeepAlive msg = true →
  handleClients_body msg t = (tt, t) ∧
  count_ev is_lookup (trace (exec (handleClients_body msg) t))
    = count_ev is_lookup (trace t) ∧
  Clients (exec (handleClients_body msg) t) = Clients t ∧
  heap (exec (handleClients_body msg) t) = heap t ∧
  ∀ rest, handleClients (msg :: rest) t = handleClients rest t.
Proof.
  intros HK.
  assert (Hskip : handleClients_body msg t = (tt, t)).
  { unfold handleClients_body. by rewrite HK. }
  unfold exec. rewrite Hskip. simpl.
  repeat split; try done.
  intros rest. simpl. destruct (ChannelOpen t) eqn:Hopen.
  - unfold exec. by rewrite Hskip.
  - destruct rest; simpl; by rewrite Hopen.
Qed.

Lemma keepAlive_skipped_witness :
  KeepAlive Frame.keepAlive = true ∧
  handleClients_body Frame.keepAlive (Sample.one SpecClient.fresh)
    = (tt, Sample.one SpecClient.fresh).
Proof.
  split; [reflexivity|].
  apply (keepAlive_skipped Frame.keepAlive (Sample.one SpecClient.fresh)).
  reflexivity.
Defined.

(** ** The dispatcher, branch by branch *)

Section Branches.
Context {C : Type} `{!ClientOps C}.
Implicit Types (msg : DataMessage) (t : tunnel C) (client : loc).

Lemma body_unknown msg t :
  KeepAlive msg = false →
  Clients t !! ClientId msg = None →
  exec (handleClients_body msg) t =
    mkTunnel (ChannelOpen t) (Clients t) (heap t)
      (trace t ++ [EvLock; EvLookup (ClientId msg);
                   EvLog Warning ["Received data from closed client";
                                  ClientId msg];
                   EvUnlock]) (has_sshClient t) (has_sshSession t).
Proof.
  intros HK Hl. run_body. rewrite HK. simpl. rewrite Hl. simpl.
  by flatten_trace.
Qed.

Lemma body_dead msg t client :
  KeepAlive msg = false →
  DeadClient msg = true →
  Clients t !! ClientId msg = Some client →
  exec (handleClients_body msg) t =
    mkTunnel (ChannelOpen t) (delete (ClientId msg) (Clients t))
      (<[client := Terminate
                     ((<[client := NotifyEOF false (heap t client)]> (heap t))
                        client)]>
         (<[client := NotifyEOF false (heap t client)]> (heap t)))
      (trace t ++ [EvLock; EvLookup (ClientId msg);
                   EvCall client (mNotifyEOF false); EvCall client mTerminate;
                   EvDelete (ClientId msg); EvUnlock])
        (has_sshClient t) (has_sshSession t).
Proof.
  intros HK HD Hl. run_body. rewrite HK. simpl. rewrite Hl, HD. simpl.
  by flatten_trace.
Qed.

Lemma body_close msg t client :
  KeepAlive msg = false →
  DeadClient msg = false →
  CloseClient msg = true →
  Clients t !! ClientId msg = Some client →
  exec (handleClients_body msg) t =
    mkTunnel (ChannelOpen t) (delete (ClientId msg) (Clients t))
      (<[client := Close (heap t client)]> (heap t))
      (trace t ++ [EvLock; EvLookup (ClientId msg); EvCall client mClose;
                   EvDelete (ClientId msg); EvUnlock])
        (has_sshClient t) (has_sshSession t).
Proof.
  intros HK HD HC Hl. run_body. rewrite HK. simpl. rewrite Hl, HD, HC. simpl.
  by flatten_trace.
Qed.

Lemma body_data_dead msg t client :
  KeepAlive msg = false →
  DeadClient msg = false →
  CloseClient msg = false →
  Clients t !! ClientId msg = Some client →
  IsDead (heap t client) = true →
  exec (handleClients_body msg) t =
    mkTunnel (ChannelOpen t) (Clients t) (heap t)
      (trace t ++ [EvLock; EvLookup (ClientId msg); EvCall client mIsDead;
                   EvUnlock]) (has_sshClient t) (has_sshSession t).
Proof.
  intros HK HD HC Hl Hdead. run_body. rewrite HK. simpl.
  rewrite Hl, HD, HC. simpl. rewrite Hdead. simpl.
  by flatten_trace.
Qed.

Lemma body_data_write msg t client c' err :
  KeepAlive msg = false →
  DeadClient msg = false →
  CloseClient msg = false →
  Clients t !! ClientId msg = Some client →
  IsDead (heap t client) = false →
  Write (Data msg) (heap t client) = (c', err) →
  exec (handleClients_body msg) t =
    match err with
    | None =>
        mkTunnel (ChannelOpen t) (Clients t) (<[client := c']> (heap t))
          (trace t ++ [EvLock; EvLookup (ClientId msg); EvCall client mIsDead;
                       EvCall client (mWrite (Data msg)); EvUnlock])
            (has_sshClient t) (has_sshSession t)
    | Some e =>
        mkTunnel (ChannelOpen t) (Clients t)
          (<[client := NotifyEOF true
                 ((<[client := Terminate ((<[client := c']> (heap t)) client)]>
                     (<[client := c']> (heap t))) client)]>
             (<[client := Terminate ((<[client := c']> (heap t)) client)]>
                (<[client := c']> (heap t))))
          (trace t ++ [EvLock; EvLookup (ClientId msg); EvCall client mIsDead;
                       EvCall client (mWrite (Data msg));
                       EvCall client mTerminate;
                       EvCall client (mNotifyEOF true);
                       EvLog Error ["Error Writing: %s\n"; e]; EvUnlock])
            (has_sshClient t) (has_sshSession t)
    end.
Proof.
  intros HK HD HC Hl Hdead Hw. run_body. rewrite HK. simpl.
  rewrite Hl, HD, HC. simpl. rewrite Hdead. simpl. rewrite Hw.
  destruct err; simpl; by flatten_trace.
Qed.

(** The iteration never touches [ChannelOpen]. *)
Lemma body_ChannelOpen msg t :
  ChannelOpen (exec (handleClients_body msg) t) = ChannelOpen t.
Proof.
  destruct (KeepAlive msg) eqn:HK.
  { unfold exec, handleClients_body. by rewrite HK. }
  destruct (Clients t !! ClientId msg) as [client|] eqn:Hl.
  2: { by rewrite body_unknown. }
  destruct (DeadClient msg) eqn:HD.
  { by rewrite (body_dead _ _ client). }
  destruct (CloseClient msg) eqn:HC.
  { by rewrite (body_close _ _ client). }
  destruct (IsDead (heap t client)) eqn:Hdead.
  { by rewrite (body_data_dead _ _ client). }
  destruct (Write (Data msg) (heap t client)) as [c' err] eqn:Hw.
  rewrite (body_data_write _ _ client c' err) by done.
  by destruct err.
Qed.

Lemma handleClients_cons msg rest t :
  ChannelOpen t = true →
  handleClients (msg :: rest) t
    = handleClients rest (exec (handleClients_body msg) t).
Proof. intros Hopen. simpl. by rewrite Hopen. Qed.

End Branches.

Lemma body_keepAlive `{ClientOps C} (msg : DataMessage) (t : tunnel C) :
  KeepAlive msg = true → exec (handleClients_body msg) t = t.
Proof. intros HK. unfold exec, handleClients_body. by rewrite HK. Qed.

(** Splits an iteration of the dispatcher into its branches and rewrites the
    iteration into the tunnel that the branch yields. *)
Ltac body_cases msg t :=
  destruct (KeepAlive msg) eqn:HK;
  [ rewrite (body_keepAlive msg t HK)
  | destruct (Clients t !! ClientId msg) as [client|] eqn:Hl;
    [ destruct (DeadClient msg) eqn:HD;
      [ rewrite (body_dead msg t client HK HD Hl)
      | destruct (CloseClient msg) eqn:HC;
        [ rewrite (body_close msg t client HK HD HC Hl)
        | destruct (IsDead (heap t client)) eqn:Hdead;
          [ rewrite (body_data_dead msg t client HK HD HC Hl Hdead)
          | destruct (Write (Data msg) (heap t client)) as [c' err] eqn:Hw;
            rewrite (body_data_write msg t client c' err HK HD HC Hl Hdead Hw);
            destruct err ] ] ]
    | rewrite (body_unknown msg t HK Hl) ] ].

Section Removal.
Context {C : Type} `{!ClientOps C}.
Implicit Types (msg : DataMessage) (t : tunnel C) (id : string).

(** The dispatcher never registers a connection, and deletes only the
    identifier it has just found. *)
Lemma body_absent id msg t :
  Clients t !! id = None →
  Clients (exec (handleClients_body msg) t) !! id = None ∧
  count_ev (is_delete id) (trace (exec (handleClients_body msg) t))
    = count_ev (is_delete id) (trace t).
Proof.
  intros Habs.
  assert (Hne : ∀ client, Clients t !! ClientId msg = Some client →
                          ClientId msg ≠ id) by congruence.
  body_cases msg t; simpl; rewrite ?count_ev_app; simpl;
    try (specialize (Hne _ eq_refl);
         rewrite (bool_decide_eq_false_2 _ Hne), lookup_delete_ne by done);
    (split; [done | lia]).
Qed.

Lemma handleClients_absent id later t :
  Clients t !! id = None →
  Clients (handleClients later t) !! id = None ∧
  count_ev (is_delete id) (trace (handleClients later t))
    = count_ev (is_delete id) (trace t).
Proof.
  revert t. induction later as [|msg later IH]; intros t Habs; simpl.
  - by destruct (ChannelOpen t).
  - destruct (ChannelOpen t); [|done].
    destruct (body_absent id msg t Habs) as [Habs' Hcount].
    destruct (IH _ Habs') as [? ?]. split; [done | congruence].
Qed.

End Removal.

(** ** Frames for an unknown connection *)

(** C5. A frame without the keepAlive flag whose connectionId is not in the
    registry is logged as a warning and dropped: the registry and every
    logical connection stay as they were, the iteration makes no call on a
    logical connection and deletes nothing, it ends with the lock released,
    and the loop goes on with the next frame. *)
Theorem unknown_client_dropped `{ClientOps C}
    (msg : DataMessage) (t : tunnel C) :
  KeepAlive msg = false →
  Clients t !! ClientId msg = None →
  let t' := exec (handleClients_body msg) t in
  Clients t' = Clients t ∧
  heap t' = heap t ∧
  ChannelOpen t' = ChannelOpen t ∧
  trace t' = trace t ++ [EvLock; EvLookup (ClientId msg);
                         EvLog Warning ["Received data from closed client";
                                        ClientId msg];
                         EvUnlock] ∧
  (∀ rest, ChannelOpen t = true →
           handleClients (msg :: rest) t = handleClients rest t').
Proof.
  intros HK Hl t'. subst t'. split_and!.
  1-4: by rewrite body_unknown.
  intros rest Hopen. by apply handleClients_cons.
Qed.

Lemma unknown_client_dropped_witness :
  let t := Sample.one SpecClient.fresh in
  let msg := Frame.data "c2" Sample.PING in
  KeepAlive msg = false ∧ Clients t !! ClientId msg = None ∧
  Clients (exec (handleClients_body msg) t) = Clients t.
Proof.
  split; [reflexivity|]. split; [reflexivity|].
  apply (unknown_client_dropped (Frame.data "c2" Sample.PING)
                                (Sample.one SpecClient.fresh));
    reflexivity.
Defined.

(** ** Data frames *)

(** C8. A data-bearing frame for a registered connection that is dead is
    discarded silently: the iteration looks the connection up and asks
    [IsDead], and nothing else; the payload is not written, the registry
    keeps the entry, no log line is made and nothing is terminated. *)
Theorem dead_client_data_discarded `{ClientOps C}
    (msg : DataMessage) (t : tunnel C) (client : loc) :
  data_frame msg = true →
  Clients t !! ClientId msg = Some client →
  IsDead (heap t client) = true →
  let t' := exec (handleClients_body msg) t in
  Clients t' = Clients t ∧
  Clients t' !! ClientId msg = Some client ∧
  heap t' = heap t ∧
  trace t' = trace t ++ [EvLock; EvLookup (ClientId msg);
                         EvCall client mIsDead; EvUnlock].
Proof.
  intros Hdata Hl Hdead t'. subst t'. unfold data_frame in Hdata.
  destruct (KeepAlive msg) eqn:HK, (CloseClient msg) eqn:HC,
    (DeadClient msg) eqn:HD; try discriminate.
  by rewrite (body_data_dead msg t client).
Qed.

Lemma dead_client_data_discarded_witness :
  let t := Sample.one SpecClient.half_closed in
  let msg := Frame.data "c1" Sample.PING in
  data_frame msg = true ∧ Clients t !! ClientId msg = Some 1%positive ∧
  IsDead (heap t 1%positive) = true ∧
  trace (exec (handleClients_body msg) t) =
    trace t ++ [EvLock; EvLookup (ClientId msg); EvCall 1%positive mIsDead;
                EvUnlock].
Proof.
  split; [reflexivity|]. split; [reflexivity|]. split; [reflexivity|].
  apply (dead_client_data_discarded
           (Frame.data "c1" Sample.PING)
           (Sample.one SpecClient.half_closed) 1%positive);
    reflexivity.
Defined.

(** C1. A failed write of a data frame to a registered, live connection ends in
    [Terminate()] then [NotifyEOF(true)] and an error log line, within the
    same iteration and with no further frame from the peer; the registry is
    left as it was, so the entry of the connection stays registered. *)
Theorem write_failure_terminates `{ClientOps C}
    (msg : DataMessage) (t : tunnel C) (client : loc) (c' : C) (e : string) :
  data_frame msg = true →
  Clients t !! ClientId msg = Some client →
  IsDead (heap t client) = false →
  Write (Data msg) (heap t client) = (c', Some e) →
  let t' := exec (handleClients_body msg) t in
  trace t' = trace t ++ [EvLock; EvLookup (ClientId msg);
                         EvCall client mIsDead;
                         EvCall client (mWrite (Data msg));
                         EvCall client mTerminate;
                         EvCall client (mNotifyEOF true);
                         EvLog Error ["Error Writing: %s\n"; e]; EvUnlock] ∧
  heap t' client = NotifyEOF true (Terminate c') ∧
  (∀ other, other ≠ client → heap t' other = heap t other) ∧
  Clients t' = Clients t ∧
  Clients t' !! ClientId msg = Some client.
Proof.
  intros Hdata Hl Hdead Hw t'. subst t'. unfold data_frame in Hdata.
  destruct (KeepAlive msg) eqn:HK, (CloseClient msg) eqn:HC,
    (DeadClient msg) eqn:HD; try discriminate.
  rewrite (body_data_write msg t client c' (Some e)) by done. simpl.
  split_and!; try done.
  - by rewrite !fn_lookup_insert.
  - intros other Hne. by rewrite !fn_lookup_insert_ne.
Qed.

Lemma write_failure_terminates_witness :
  let t := Sample.one SpecClient.broken in
  let msg := Frame.data "c1" Sample.PING in
  data_frame msg = true ∧ Clients t !! ClientId msg = Some 1%positive ∧
  IsDead (heap t 1%positive) = false ∧
  Write (Data msg) (heap t 1%positive)
    = (SpecClient.broken, Some "WriteError") ∧
  Clients (exec (handleClients_body msg) t) !! ClientId msg
    = Some 1%positive.
Proof.
  split; [reflexivity|]. split; [reflexivity|]. split; [reflexivity|].
  split; [reflexivity|].
  apply (write_failure_terminates
           (Frame.data "c1" Sample.PING) (Sample.one SpecClient.broken)
           1%positive SpecClient.broken "WriteError");
    reflexivity.
Defined.

(** C1, as the spec states it, fails: the connection ["c1"] is registered and
    live, the write of ["PING"] to its socket fails, and after the iteration
    the registry still maps ["c1"] to the connection. *)
Lemma write_failure_keeps_entry :
  let t := Sample.one SpecClient.broken in
  let msg := Frame.data "c1" Sample.PING in
  data_frame msg = true ∧
  Clients t !! "c1" = Some 1%positive ∧
  IsDead (heap t 1%positive) = false ∧
  (Write (Data msg) (heap t 1%positive)).2 = Some "WriteError" ∧
  ¬ (Clients (exec (handleClients_body msg) t) !! "c1" = None).
Proof.
  split; [reflexivity|]. split; [reflexivity|]. split; [reflexivity|].
  split; [reflexivity|].
  vm_compute. discriminate.
Qed.

(** ** The close handshake *)

(** C3. A frame carrying the closeRequest (CloseClient) flag for a registered
    connection makes the dispatcher call [Close()] on the connection, and no
    other method of it, and delete the entry from the registry. *)
Theorem closeRequest_closes `{ClientOps C}
    (msg : DataMessage) (t : tunnel C) (client : loc) :
  frame_invariant msg = true →
  CloseClient msg = true →
  Clients t !! ClientId msg = Some client →
  let t' := exec (handleClients_body msg) t in
  trace t' = trace t ++ [EvLock; EvLookup (ClientId msg);
                         EvCall client mClose; EvDelete (ClientId msg);
                         EvUnlock] ∧
  heap t' client = Close (heap t client) ∧
  (∀ other, other ≠ client → heap t' other = heap t other) ∧
  Clients t' = delete (ClientId msg) (Clients t) ∧
  Clients t' !! ClientId msg = None.
Proof.
  intros Hinv HC Hl t'. subst t'. unfold frame_invariant in Hinv.
  rewrite HC in Hinv.
  destruct (KeepAlive msg) eqn:HK, (DeadClient msg) eqn:HD; try discriminate.
  rewrite (body_close msg t client) by done. simpl.
  split_and!; try done.
  - by rewrite fn_lookup_insert.
  - intros other Hne. by rewrite fn_lookup_insert_ne.
  - apply lookup_delete_eq.
Qed.

Lemma closeRequest_closes_witness :
  let t := Sample.one SpecClient.fresh in
  let msg := Frame.closeRequest "c1" in
  frame_invariant msg = true ∧ CloseClient msg = true ∧
  Clients t !! ClientId msg = Some 1%positive ∧
  Clients (exec (handleClients_body msg) t) !! ClientId msg = None.
Proof.
  split; [reflexivity|]. split; [reflexivity|]. split; [reflexivity|].
  apply (closeRequest_closes (Frame.closeRequest "c1")
                             (Sample.one SpecClient.fresh) 1%positive);
    reflexivity.
Defined.

(** C2. A frame carrying the closeAck (DeadClient) flag for a registered
    connection makes the dispatcher call [NotifyEOF(false)] then
    [Terminate()] on the connection and delete the entry.  Whatever frames
    the dispatcher handles afterwards, the identifier stays out of the
    registry, that deletion remains the only one made for it, and each later
    frame naming it (keepAlive frames are skipped anyway) is dropped with the
    warning, with no call on any logical connection. *)
Theorem closeAck_removes_once `{ClientOps C}
    (msg : DataMessage) (t : tunnel C) (client : loc) :
  frame_invariant msg = true →
  DeadClient msg = true →
  Clients t !! ClientId msg = Some client →
  let t1 := exec (handleClients_body msg) t in
  trace t1 = trace t ++ [EvLock; EvLookup (ClientId msg);
                         EvCall client (mNotifyEOF false);
                         EvCall client mTerminate;
                         EvDelete (ClientId msg); EvUnlock] ∧
  heap t1 client = Terminate (NotifyEOF false (heap t client)) ∧
  (∀ other, other ≠ client → heap t1 other = heap t other) ∧
  Clients t1 = delete (ClientId msg) (Clients t) ∧
  ∀ later : list DataMessage,
    let t2 := handleClients later t1 in
    Clients t2 !! ClientId msg = None ∧
    count_ev (is_delete (ClientId msg)) (trace t2)
      = count_ev (is_delete (ClientId msg)) (trace t) + 1 ∧
    ∀ msg' : DataMessage,
      ClientId msg' = ClientId msg →
      KeepAlive msg' = false →
      let t3 := exec (handleClients_body msg') t2 in
      Clients t3 = Clients t2 ∧ heap t3 = heap t2 ∧
      trace t3 = trace t2 ++ [EvLock; EvLookup (ClientId msg);
                              EvLog Warning
                                ["Received data from closed client";
                                 ClientId msg];
                              EvUnlock].
Proof.
  intros Hinv HD Hl t1. subst t1. unfold frame_invariant in Hinv.
  rewrite HD in Hinv.
  destruct (KeepAlive msg) eqn:HK, (CloseClient msg) eqn:HC; try discriminate.
  rewrite (body_dead msg t client) by done.
  match goal with |- context [handleClients _ ?x] => set (t1 := x) end.
  assert (Habs1 : Clients t1 !! ClientId msg = None)
    by apply lookup_delete_eq.
  split_and!; try done.
  - subst t1. simpl. by rewrite !fn_lookup_insert.
  - intros other Hne. subst t1. simpl. by rewrite !fn_lookup_insert_ne.
  - intros later. cbv zeta.
    destruct (handleClients_absent (ClientId msg) later t1 Habs1)
      as [Habs Hcount].
    split_and!; [done | |].
    + rewrite Hcount. subst t1. simpl. rewrite count_ev_app. simpl.
      rewrite bool_decide_eq_true_2 by done. lia.
    + intros msg' Hid HK'. rewrite <- Hid in Habs.
      rewrite (body_unknown msg' _ HK' Habs). by rewrite Hid.
Qed.

Lemma closeAck_removes_once_witness :
  let t := Sample.one SpecClient.fresh in
  let msg := Frame.closeAck "c1" in
  frame_invariant msg = true ∧ DeadClient msg = true ∧
  Clients t !! ClientId msg = Some 1%positive ∧
  Clients (exec (handleClients_body msg) t)
    = delete (ClientId msg) (Clients t).
Proof.
  split; [reflexivity|]. split; [reflexivity|]. split; [reflexivity|].
  apply (closeAck_removes_once (Frame.closeAck "c1")
                               (Sample.one SpecClient.fresh) 1%positive);
    reflexivity.
Defined.

(** ** Frames with several flags *)

(** C10, as the spec states it, fails on a frame that sets keepAlive together
    with DeadClient: for the registered connection ["c1"] the frame is not
    handled as the terminal acknowledgment; the iteration does nothing and
    ["c1"] stays registered. *)
Lemma keepAlive_overrides_DeadClient :
  let t := Sample.one SpecClient.fresh in
  let msg := {| ClientId := "c1"; Data := []; CloseClient := false;
                DeadClient := true; KeepAlive := true |} in
  DeadClient msg = true ∧
  Clients t !! ClientId msg = Some 1%positive ∧
  exec (handleClients_body msg) t
    ≠ exec (handleClients_body (Frame.closeAck "c1")) t ∧
  trace (exec (handleClients_body msg) t) = [] ∧
  Clients (exec (handleClients_body msg) t) !! "c1" = Some 1%positive.
Proof.
  split; [reflexivity|]. split; [reflexivity|]. split.
  - intros Heq. apply (f_equal trace) in Heq. vm_compute in Heq.
    discriminate.
  - split; reflexivity.
Qed.

(** C10. The dispatcher ranks the flags of a frame: a frame with keepAlive
    set is skipped whatever else it carries; otherwise a frame with
    DeadClient set is handled exactly as the closeAck frame of its
    connectionId, whatever its CloseClient flag and payload; otherwise a
    frame with CloseClient set is handled exactly as the closeRequest frame
    of its connectionId, whatever its payload; a frame with no flag is
    handled as data. *)
Theorem flag_priority `{ClientOps C} (msg : DataMessage) (t : tunnel C) :
  exec (handleClients_body msg) t =
    (if KeepAlive msg then t
     else if DeadClient msg then
       exec (handleClients_body (Frame.closeAck (ClientId msg))) t
     else if CloseClient msg then
       exec (handleClients_body (Frame.closeRequest (ClientId msg))) t
     else
       exec (handleClients_body (Frame.data (ClientId msg) (Data msg))) t) ∧
  ∀ client : loc,
    KeepAlive msg = false →
    Clients t !! ClientId msg = Some client →
    (DeadClient msg = true →
     trace (exec (handleClients_body msg) t) =
       trace t ++ [EvLock; EvLookup (ClientId msg);
                   EvCall client (mNotifyEOF false); EvCall client mTerminate;
                   EvDelete (ClientId msg); EvUnlock]) ∧
    (DeadClient msg = false → CloseClient msg = true →
     trace (exec (handleClients_body msg) t) =
       trace t ++ [EvLock; EvLookup (ClientId msg); EvCall client mClose;
                   EvDelete (ClientId msg); EvUnlock]).
Proof.
  split.
  - destruct (KeepAlive msg) eqn:HK.
    { by apply body_keepAlive. }
    destruct (DeadClient msg) eqn:HD; [|destruct (CloseClient msg) eqn:HC];
      unfold exec, handleClients_body; rewrite HK; simpl;
      rewrite ?HD, ?HC; reflexivity.
  - intros client HK Hl. split.
    + intros HD. by rewrite (body_dead msg t client).
    + intros HD HC. by rewrite (body_close msg t client).
Qed.

Lemma flag_priority_witness :
  let t := Sample.one SpecClient.fresh in
  let msg := {| ClientId := "c1"; Data := Sample.PING; CloseClient := true;
                DeadClient := true; KeepAlive := false |} in
  KeepAlive msg = false ∧ Clients t !! ClientId msg = Some 1%positive ∧
  DeadClient msg = true ∧
  trace (exec (handleClients_body msg) t) =
    trace t ++ [EvLock; EvLookup (ClientId msg);
                EvCall 1%positive (mNotifyEOF false);
                EvCall 1%positive mTerminate;
                EvDelete (ClientId msg); EvUnlock].
Proof.
  split; [reflexivity|]. split; [reflexivity|]. split; [reflexivity|].
  apply (flag_priority
           {| ClientId := "c1"; Data := Sample.PING; CloseClient := true;
              DeadClient := true; KeepAlive := false |}
           (Sample.one SpecClient.fresh));
    reflexivity.
Defined.

(** ** The registry lock *)

Lemma guarded_app (p : event → bool) (held : bool) (es1 es2 : list event) :
  guarded p held (es1 ++ es2)
    = guarded p held es1 && guarded p (held_after held es1) es2.
Proof.
  revert held. induction es1 as [|e es1 IH]; intros held; [done|].
  destruct e; simpl; rewrite IH; by rewrite ?andb_assoc.
Qed.

Lemma held_after_app (held : bool) (es1 es2 : list event) :
  held_after held (es1 ++ es2) = held_after (held_after held es1) es2.
Proof.
  revert held. induction es1 as [|e es1 IH]; intros held; [done|].
  destruct e; simpl; by rewrite IH.
Qed.

(** What an iteration adds to the trace lies between a [Lock] and an
    [Unlock]. *)
Lemma body_locked `{ClientOps C} (p : event → bool)
    (msg : DataMessage) (t : tunnel C) :
  ∃ es, trace (exec (handleClients_body msg) t) = trace t ++ es ∧
        guarded p false es = true ∧ held_after false es = false.
Proof.
  body_cases msg t; simpl.
  1: exists []; by rewrite app_nil_r.
  all: eexists; split; [reflexivity|]; simpl;
    rewrite ?implb_true_r; done.
Qed.

(** C6, as the spec states it, fails twice.  The dispatcher holds the
    registry lock while it writes the payload of a data frame to the socket;
    and the accept loop of [Run] stores the new connection in the registry
    without taking the lock. *)
Lemma lock_held_across_write :
  lock_free is_blocking_io false
    (trace (exec (handleClients_body (Frame.data "c1" Sample.PING))
                 (Sample.one SpecClient.fresh))) = false ∧
  guarded is_mutation false
    (trace (exec (Run_accept_body
                    (Accepted "127.0.0.1:40000" 2%positive SpecClient.fresh
                              "127.0.0.1:40000"))
                 Sample.empty_tunnel)) = false.
Proof. split; reflexivity. Qed.

Lemma well_locked_app (held : bool) (es1 es2 : list event) :
  well_locked held (es1 ++ es2)
    = well_locked held es1 && well_locked (held_after held es1) es2.
Proof.
  revert held. induction es1 as [|e es1 IH]; intros held; [done|].
  destruct e; simpl; rewrite IH; by rewrite ?andb_assoc.
Qed.

(** What one iteration adds to the trace: nothing for a keepAlive frame, and
    otherwise one [Lock], the handling, and one [Unlock]. *)
Lemma body_bracketed `{ClientOps C} (msg : DataMessage) (t : tunnel C) :
  ∃ mid,
    trace (exec (handleClients_body msg) t)
      = trace t ++ (if KeepAlive msg then []
                    else EvLock :: mid ++ [EvUnlock]) ∧
    count_ev is_Lock mid = 0 ∧ count_ev is_Unlock mid = 0 ∧
    well_locked true mid = true ∧ held_after true mid = true.
Proof.
  body_cases msg t; simpl.
  1: exists []; by rewrite app_nil_r.
  all: match goal with
       | |- ∃ mid, _ ++ _ :: ?L = _ ∧ _ =>
           exists (take (length L - 1) L)
       end; split_and!; reflexivity.
Qed.

(** C6. Along any run of the dispatcher, every deletion from the registry
    happens while the registry lock is held.  For each frame that is not a
    keepAlive the dispatcher takes the lock once, does the whole handling of
    the frame under it, the lookup, every call on the connection and so
    every socket write of a payload included, and releases it once when the
    frame is done; for a keepAlive frame it does not touch the lock.  So
    along a run the lock is taken only while free, every other action
    happens while it is held, and it is taken and released as many times as
    frames that are not keepAlive are handled. *)
Theorem dispatcher_lock_discipline `{ClientOps C}
    (InChannel : list DataMessage) (t : tunnel C) :
  (∀ (msg : DataMessage) (t' : tunnel C),
     ∃ mid,
       trace (exec (handleClients_body msg) t')
         = trace t' ++ (if KeepAlive msg then []
                        else EvLock :: mid ++ [EvUnlock]) ∧
       count_ev is_Lock mid = 0 ∧ count_ev is_Unlock mid = 0) ∧
  ∃ es, trace (handleClients InChannel t) = trace t ++ es ∧
        guarded is_mutation false es = true ∧
        guarded is_blocking_io false es = true ∧
        held_after false es = false ∧
        well_locked false es = true ∧
        count_ev is_Lock es
          = (if ChannelOpen t
             then length (List.filter (λ msg, negb (KeepAlive msg))
                                      InChannel)
             else 0) ∧
        count_ev is_Unlock es = count_ev is_Lock es.
Proof.
  split.
  { intros msg t'. destruct (body_bracketed msg t') as (mid & ? & ? & ? & _).
    by exists mid. }
  revert t. induction InChannel as [|msg rest IH]; intros t; simpl.
  - exists []. rewrite app_nil_r. by destruct (ChannelOpen t).
  - destruct (ChannelOpen t) eqn:Hopen.
    2: { exists []. by rewrite app_nil_r. }
    destruct (IH (exec (handleClients_body msg) t))
      as (es2 & -> & Hm & Hw & Hh & Hwl & Hlock & Hunlock).
    rewrite body_ChannelOpen, Hopen in Hlock.
    destruct (body_locked is_mutation msg t) as (es1 & Htr & Hm1 & Hh1).
    destruct (body_locked is_blocking_io msg t) as (es1' & Htr' & Hw1 & _).
    rewrite Htr in Htr'. apply app_inv_head in Htr'. subst es1'.
    destruct (body_bracketed msg t) as (mid & Hmid & Hl & Hu & Hwm & Hhm).
    rewrite Htr in Hmid. apply app_inv_head in Hmid.
    exists (es1 ++ es2). rewrite Htr, (assoc_L (++)).
    rewrite !guarded_app, held_after_app, well_locked_app, !count_ev_app.
    rewrite Hm1, Hw1, Hh1, Hm, Hw, Hh, Hwl, Hunlock, Hlock.
    split_and!; try done.
    + subst es1. destruct (KeepAlive msg); [done|].
      simpl. by rewrite well_locked_app, Hwm, Hhm.
    + subst es1. destruct (KeepAlive msg); simpl; [done|].
      rewrite count_ev_app, Hl. simpl. lia.
    + subst es1. destruct (KeepAlive msg); simpl; [done|].
      rewrite !count_ev_app, Hl, Hu. simpl. lia.
Qed.

(** ** Shutdown *)

(** C7. In [onExit], run once the SSH session is established: when the first
    wait of five seconds ends without the closure notification, SIGTERM is
    sent to the remote process once; when the second wait of five seconds
    ends without it, the session is closed once and the line about files left
    on the remote host is logged once.  When both waits time out the
    escalation runs in this order: wait, signal, wait, the two log lines,
    close of the session. *)
Theorem shutdown_escalation `{ClientOps C}
    (o1 o2 : select_outcome) (t : tunnel C) :
  has_sshSession t = true →
  ∃ es,
    trace (exec (onExit o1 o2) t) = trace t ++ es ∧
    (o1 = Timeout → count_ev (is_signal SIGTERM) es = 1) ∧
    (o2 = Timeout →
     count_ev is_session_close es = 1 ∧
     count_ev (is_log ["IMPORTANT: This might leave files in remote host."])
              es = 1) ∧
    (has_sshClient t = true → o1 = Timeout → o2 = Timeout →
     (onExit o1 o2 t).1 = true ∧
     es = [EvTermiosRestore; EvForwarderTerminate;
           EvLog Notice ["Waiting to remote process to clean up..."];
           EvSelect (5 * Second)%Z Timeout;
           EvSignal sshSession SIGTERM;
           EvLog Warning ["Remote close timeout. Sending TERM signal."];
           EvSelect (5 * Second)%Z Timeout;
           EvLog Error ["Remote process don't respond. Force close channel."];
           EvLog Error ["IMPORTANT: This might leave files in remote host."];
           EvSessionClose sshSession;
           EvSshClientClose; EvListenerClose]).
Proof.
  destruct t as [open clients store events client session].
  cbn [has_sshSession has_sshClient]. intros ->.
  destruct client, o1, o2; run_M; flatten_trace;
    (eexists; split; [reflexivity|]); split_and!; try done.
Qed.

Lemma shutdown_escalation_witness :
  has_sshSession (Sample.one SpecClient.fresh) = true ∧
  ∃ es,
    trace (exec (onExit Timeout Timeout) (Sample.one SpecClient.fresh))
      = trace (Sample.one SpecClient.fresh) ++ es ∧
    count_ev (is_signal SIGTERM) es = 1 ∧
    count_ev is_session_close es = 1 ∧
    count_ev (is_log ["IMPORTANT: This might leave files in remote host."])
             es = 1.
Proof.
  split; [reflexivity|].
  destruct (shutdown_escalation Timeout Timeout (Sample.one SpecClient.fresh)
                                eq_refl)
    as (es & Htr & Hsig & Hclose & _).
  exists es. split; [exact Htr|]. split; [exact (Hsig eq_refl)|].
  exact (Hclose eq_refl).
Defined.

(** ** Opening the tunnel *)

Section Opening.
Context {C : Type} `{!ClientOps C}.

Lemma never_nil_ret (o : outcome) :
  o ≠ Returns None → never_nil (C := C) (mret o).
Proof. intros Ho t. exact Ho. Qed.

Lemma never_nil_bind {A} (m : M C A) (f : A → M C outcome) :
  (∀ a, never_nil (f a)) → never_nil (m ≫= f).
Proof.
  intros Hf t. unfold mbind, M_bind. destruct (m t) as [a t']. apply Hf.
Qed.

Lemma never_nil_check (err : error) (prefix : string) (k : M C outcome) :
  never_nil k → never_nil (check err prefix k).
Proof. intros Hk. destruct err; [by intros t | exact Hk]. Qed.

Lemma never_nil_defer (e : event) (body : M C outcome) :
  never_nil body → never_nil (defer e body).
Proof.
  intros Hb t. specialize (Hb t). unfold defer, mbind, M_bind.
  destruct (body t) as [o t']. by destruct o.
Qed.

Lemma never_nil_defer_session (s : session) (err : error)
    (body : M C outcome) :
  never_nil body → never_nil (defer_session_Close s err body).
Proof.
  intros Hb t. specialize (Hb t). unfold defer_session_Close, mbind, M_bind.
  destruct (body t) as [o t']. by destruct o, err.
Qed.

Lemma never_nil_send (w : world) (k : M C outcome) :
  never_nil k → never_nil (send_NotifyClosure w k).
Proof.
  intros Hk. unfold send_NotifyClosure.
  destruct (closure_received w); [|by intros t].
  apply never_nil_bind. intros _. exact Hk.
Qed.

End Opening.

(** Walks down an opening function, one statement at a time. *)
Ltac never_nil_step :=
  match goal with
  | |- never_nil (check _ _ _) => apply never_nil_check
  | |- never_nil (defer _ _) => apply never_nil_defer
  | |- never_nil (defer_session_Close _ _ _) => apply never_nil_defer_session
  | |- never_nil (send_NotifyClosure _ _) => apply never_nil_send
  | |- never_nil (mret _) => apply never_nil_ret; discriminate
  | |- never_nil (if ?b then _ else _) => destruct b
  | |- never_nil (match ?x with _ => _ end) => destruct x
  | |- never_nil (_ ≫= _) => apply never_nil_bind; intros ?
  end.

Lemma openTunnel_never_nil `{ClientOps C} (w : world) (verboseLevel : Z) :
  never_nil (C := C) (openTunnel w verboseLevel).
Proof. unfold openTunnel. repeat never_nil_step. Qed.

Lemma openTransparentTunnel_never_nil `{ClientOps C}
    (w : world) (cmd : list string) :
  never_nil (C := C) (openTransparentTunnel w cmd).
Proof. unfold openTransparentTunnel. repeat never_nil_step. Qed.

(** Runs an opening function by value. *)
Ltac run_open :=
  cbv [exec openTunnel openTransparentTunnel uploadForwarder getPublicKey
       getPassword getUsername
       getRemoteHost getRemoteAgentPath getRemoteExecutable
       send_NotifyClosure set_ChannelOpen set_sshClient set_sshSession
       check defer defer_session_Close is_nil Logger emit
       mbind mret M_bind M_ret errors_New
       ChannelOpen Clients heap trace has_sshClient has_sshSession fst snd
       viper os_Executable user_Current ReadPassword EscapeBashArgument
       ReadFile_err
       ParsePrivateKey_err Dial_err upload_NewSession_err Open_err
       upload_Run_err NewSession_err StdinPipe_err StdoutPipe_err Run_err
       closure_received].

(** Splits the events added to a trace into all but the last [n], which
    become the witness, and the last [n]. *)
Ltac split_tail n :=
  match goal with
  | |- ∃ pre, (_, mkTunnel _ _ _ (_ ++ ?L) _ _) = _ ∧ _ =>
      exists (take (length L - n) L); split; reflexivity
  end.

Lemma openTunnel_graceful `{ClientOps C}
    (w : world) (verboseLevel : Z) (t : tunnel C) :
  established w = true → (0 ≤ verboseLevel)%Z →
  closure_received w = true →
  ∃ pre,
    openTunnel w verboseLevel t =
      (Returns (Some "Remote process is dead"),
       mkTunnel false (Clients t) (heap t)
         (trace t ++ pre ++ [EvSetChannelOpen false; EvNotifyClosure;
                             EvSessionClose sshSession; EvSshClientClose])
         true true) ∧
    count_ev is_notify_closure pre = 0.
Proof.
  intros Hest Hv Hrecv. unfold established in Hest.
  assert (Hv' : (verboseLevel <? 0)%Z = false) by lia.
  destruct w as [cfg exe cur typed esc rf pk dial uns op urun ns sin sout
                   run recv].
  cbn [viper user_Current ReadFile_err ParsePrivateKey_err Dial_err
       upload_NewSession_err Open_err upload_Run_err NewSession_err
       StdinPipe_err StdoutPipe_err closure_received] in *.
  subst recv.
  unfold openTunnel, getPublicKey, getPassword, getUsername.
  cbn [viper user_Current]. rewrite Hv'.
  destruct (String.eqb (PrivateKey cfg) "") eqn:Hkey,
    (String.eqb (User cfg) "") eqn:Huser,
    (String.eqb (Password cfg) "") eqn:Hpass;
    cbn [orb negb] in Hest;
    repeat match goal with
           | H : _ && _ = true |- _ => apply andb_prop in H as [H ?]
           | H : is_nil ?x = true |- _ =>
               destruct x; [discriminate H|]; clear H
           | H : negb (is_nil ?x) = true |- _ =>
               destruct x; [|discriminate H]; clear H
           end;
    run_open; flatten_trace; split_tail 4.
Qed.

Lemma openTransparentTunnel_graceful `{ClientOps C}
    (w : world) (argv0 : string) (args : list string) (t : tunnel C) :
  Run_err w = None →
  closure_received w = true →
  ∃ pre,
    openTransparentTunnel w (argv0 :: args) t =
      (Returns (Some "Remote process is dead"),
       mkTunnel false (Clients t) (heap t)
         (trace t ++ pre ++ [EvSetChannelOpen false; EvNotifyClosure])
           (has_sshClient t) (has_sshSession t)) ∧
    count_ev is_notify_closure pre = 0.
Proof.
  intros Hrun Hrecv. unfold openTransparentTunnel, send_NotifyClosure.
  rewrite Hrun, Hrecv. run_open. flatten_trace. split_tail 2.
Qed.

(** C9. Neither [openTunnel] nor [openTransparentTunnel] returns [nil]:
    whatever the environment does, a value they return is an error.  Once
    the tunnel is established and the remote command has ended, with an error
    or without one for [openTunnel] and without one for
    [openTransparentTunnel], the function sets [ChannelOpen] to [false],
    sends the closure notification once and, the notification taken, returns
    the error ["Remote process is dead"]. *)
Theorem open_never_returns_nil `{ClientOps C}
    (w : world) (verboseLevel : Z) (cmd : list string) (t : tunnel C) :
  (openTunnel w verboseLevel t).1 ≠ Returns None ∧
  (openTransparentTunnel w cmd t).1 ≠ Returns None ∧
  (established w = true → (0 ≤ verboseLevel)%Z →
   closure_received w = true →
   ∃ pre,
     openTunnel w verboseLevel t =
       (Returns (Some "Remote process is dead"),
        mkTunnel false (Clients t) (heap t)
          (trace t ++ pre ++ [EvSetChannelOpen false; EvNotifyClosure;
                              EvSessionClose sshSession; EvSshClientClose])
          true true) ∧
     count_ev is_notify_closure pre = 0) ∧
  (cmd ≠ [] → Run_err w = None → closure_received w = true →
   ∃ pre,
     openTransparentTunnel w cmd t =
       (Returns (Some "Remote process is dead"),
        mkTunnel false (Clients t) (heap t)
          (trace t ++ pre ++ [EvSetChannelOpen false; EvNotifyClosure])
            (has_sshClient t) (has_sshSession t)) ∧
     count_ev is_notify_closure pre = 0).
Proof.
  split_and!.
  - apply openTunnel_never_nil.
  - apply openTransparentTunnel_never_nil.
  - apply openTunnel_graceful.
  - intros Hcmd. destruct cmd as [|argv0 args]; [done|].
    apply openTransparentTunnel_graceful.
Qed.

Lemma open_never_returns_nil_witness :
  established Sample.calm = true ∧ (0 ≤ 0)%Z ∧
  closure_received Sample.calm = true ∧
  ["sh"; "-c"; "agent"] ≠ [] ∧ Run_err Sample.calm = None ∧
  (openTunnel Sample.calm 0 Sample.empty_tunnel).1
    = Returns (Some "Remote process is dead") ∧
  (openTransparentTunnel Sample.calm ["sh"; "-c"; "agent"]
                         Sample.empty_tunnel).1
    = Returns (Some "Remote process is dead").
Proof.
  destruct (open_never_returns_nil Sample.calm 0 ["sh"; "-c"; "agent"]
                                   Sample.empty_tunnel)
    as (_ & _ & Hssh & Hcmd).
  destruct (Hssh eq_refl (Z.le_refl 0) eq_refl) as (pre1 & -> & _).
  destruct (Hcmd ltac:(discriminate) eq_refl eq_refl) as (pre2 & -> & _).
  split_and!; try reflexivity. discriminate.
Defined.

(** * Further properties of the dispatcher *)

Section Dispatcher.
Context {C : Type} `{!ClientOps C}.
Implicit Types (msg : DataMessage) (t : tunnel C) (client : loc).

(** What every iteration keeps is kept by the loop. *)
Lemma handleClients_invariant (P : tunnel C → Prop) :
  (∀ msg t, P t → P (exec (handleClients_body msg) t)) →
  ∀ InChannel t, P t → P (handleClients InChannel t).
Proof.
  intros Hbody InChannel. induction InChannel as [|msg rest IH]; intros t Ht.
  - simpl. by destruct (ChannelOpen t).
  - simpl. destruct (ChannelOpen t); [|done]. apply IH, Hbody, Ht.
Qed.

Lemma handleClients_nil t : handleClients [] t = t.
Proof. simpl. by destruct (ChannelOpen t). Qed.

Lemma body_registry_shrinks msg t :
  Clients (exec (handleClients_body msg) t) ⊆ Clients t.
Proof. body_cases msg t; simpl; try done; apply delete_subseteq. Qed.

Lemma body_events msg t :
  ∃ es, trace (exec (handleClients_body msg) t) = trace t ++ es.
Proof.
  body_cases msg t; simpl; try (by eexists).
  exists []. by rewrite app_nil_r.
Qed.

End Dispatcher.

(** X1. A data frame for a registered, live connection whose socket write
    succeeds hands the payload to [Write] once and does nothing else: the
    object behind the connection is the one [Write] leaves, the registry is
    unchanged, nothing is logged, and neither [Terminate] nor [NotifyEOF] is
    called. *)
Theorem data_written `{ClientOps C}
    (msg : DataMessage) (t : tunnel C) (client : loc) (c' : C) :
  data_frame msg = true →
  Clients t !! ClientId msg = Some client →
  IsDead (heap t client) = false →
  Write (Data msg) (heap t client) = (c', None) →
  let t' := exec (handleClients_body msg) t in
  trace t' = trace t ++ [EvLock; EvLookup (ClientId msg);
                         EvCall client mIsDead;
                         EvCall client (mWrite (Data msg)); EvUnlock] ∧
  heap t' client = c' ∧
  (∀ other, other ≠ client → heap t' other = heap t other) ∧
  Clients t' = Clients t.
Proof.
  intros Hdata Hl Hdead Hw t'. subst t'. unfold data_frame in Hdata.
  destruct (KeepAlive msg) eqn:HK, (CloseClient msg) eqn:HC,
    (DeadClient msg) eqn:HD; try discriminate.
  rewrite (body_data_write msg t client c' None) by done. simpl.
  split_and!; try done.
  - by rewrite fn_lookup_insert.
  - intros other Hne. by rewrite fn_lookup_insert_ne.
Qed.

Lemma data_written_witness :
  let t := Sample.one SpecClient.fresh in
  let msg := Frame.data "c1" Sample.PING in
  data_frame msg = true ∧ Clients t !! ClientId msg = Some 1%positive ∧
  IsDead (heap t 1%positive) = false ∧
  SpecClient.written (heap (exec (handleClients_body msg) t) 1%positive)
    = Sample.PING.
Proof.
  split; [reflexivity|]. split; [reflexivity|]. split; [reflexivity|].
  pose proof (data_written (Frame.data "c1" Sample.PING)
                (Sample.one SpecClient.fresh) 1%positive
                (SpecClient.mkClient SpecClient.active true true Sample.PING
                                     None)
                eq_refl eq_refl eq_refl eq_refl) as (_ & Hheap & _).
  simpl in Hheap. rewrite Hheap. reflexivity.
Defined.

(** X2. The dispatcher only ever removes entries: after any run, the registry
    is a sub-map of the one it started from, so no identifier is added and
    no identifier is bound to another connection. *)
Theorem dispatcher_registry_shrinks `{ClientOps C}
    (InChannel : list DataMessage) (t : tunnel C) :
  Clients (handleClients InChannel t) ⊆ Clients t.
Proof.
  apply (handleClients_invariant (λ t', Clients t' ⊆ Clients t)); [|done].
  intros msg t' Ht'. etrans; [apply body_registry_shrinks | done].
Qed.

(** X3. The dispatcher calls methods only on registered connections: an
    object whose address no identifier of the registry is bound to is left
    untouched by any run. *)
Theorem dispatcher_touches_registered_only `{ClientOps C}
    (InChannel : list DataMessage) (t : tunnel C) (p : loc) :
  (∀ id, Clients t !! id ≠ Some p) →
  heap (handleClients InChannel t) p = heap t p.
Proof.
  intros Hfree.
  apply (handleClients_invariant
           (λ t', (∀ id, Clients t' !! id ≠ Some p) ∧ heap t' p = heap t p));
    [|done].
  intros msg t' [Hfree' Hheap]. split.
  - intros id Hid.
    apply (Hfree' id).
    by apply (lookup_weaken _ _ _ _ Hid), body_registry_shrinks.
  - rewrite <- Hheap. clear Hheap.
    assert (Hne : ∀ client, Clients t' !! ClientId msg = Some client →
                            client ≠ p).
    { intros client Hl ->. by apply (Hfree' (ClientId msg)). }
    body_cases msg t'; simpl; try done;
      specialize (Hne _ eq_refl); by rewrite !fn_lookup_insert_ne.
Qed.

Lemma dispatcher_touches_registered_only_witness :
  (∀ id, Clients (Sample.one SpecClient.fresh) !! id ≠ Some 2%positive) ∧
  heap (handleClients [Frame.data "c1" Sample.PING; Frame.closeAck "c1"]
                      (Sample.one SpecClient.fresh)) 2%positive
    = SpecClient.fresh.
Proof.
  assert (Hfree : ∀ id,
             Clients (Sample.one SpecClient.fresh) !! id ≠ Some 2%positive).
  { intros id Hid. simpl in Hid.
    apply lookup_singleton_Some in Hid as [_ Hid]. discriminate Hid. }
  split; [exact Hfree|].
  exact (dispatcher_touches_registered_only
           [Frame.data "c1" Sample.PING; Frame.closeAck "c1"]
           (Sample.one SpecClient.fresh) 2%positive Hfree).
Defined.

(** X4. The dispatcher never changes [ChannelOpen], and handling a queue is
    handling a first part of it and then the rest. *)
Theorem dispatcher_composes `{ClientOps C}
    (first rest : list DataMessage) (t : tunnel C) :
  ChannelOpen (handleClients first t) = ChannelOpen t ∧
  handleClients (first ++ rest) t
    = handleClients rest (handleClients first t).
Proof.
  split.
  - apply (handleClients_invariant (λ t', ChannelOpen t' = ChannelOpen t));
      [|done].
    intros msg t' Ht'. by rewrite body_ChannelOpen.
  - revert t. induction first as [|msg first IH]; intros t; simpl.
    + destruct (ChannelOpen t) eqn:Hopen; [done|].
      destruct rest; simpl; by rewrite Hopen.
    + destruct (ChannelOpen t) eqn:Hopen; [apply IH|].
      destruct rest; simpl; by rewrite Hopen.
Qed.

(** X5. Once a closeRequest frame has removed a connection, any later frame
    for the same identifier that is not a keepAlive, the closeAck of the
    handshake included, is dropped with the warning: the connection has been
    closed with [Close()] and gets neither [NotifyEOF] nor [Terminate] from
    the dispatcher. *)
Theorem frame_after_closeRequest_dropped `{ClientOps C}
    (req later : DataMessage) (t : tunnel C) (client : loc) :
  ChannelOpen t = true →
  frame_invariant req = true →
  CloseClient req = true →
  Clients t !! ClientId req = Some client →
  KeepAlive later = false →
  ClientId later = ClientId req →
  let t' := handleClients [req; later] t in
  trace t' = trace t ++ [EvLock; EvLookup (ClientId req);
                         EvCall client mClose; EvDelete (ClientId req);
                         EvUnlock;
                         EvLock; EvLookup (ClientId req);
                         EvLog Warning ["Received data from closed client";
                                        ClientId req];
                         EvUnlock] ∧
  heap t' client = Close (heap t client) ∧
  Clients t' = delete (ClientId req) (Clients t).
Proof.
  intros Hopen Hinv HC Hl HK' Hid t'. subst t'.
  unfold frame_invariant in Hinv. rewrite HC in Hinv.
  destruct (KeepAlive req) eqn:HK, (DeadClient req) eqn:HD;
    try discriminate.
  rewrite handleClients_cons by done.
  rewrite (body_close req t client) by done.
  rewrite handleClients_cons by done.
  rewrite body_unknown; [|done|simpl; rewrite Hid; apply lookup_delete_eq].
  rewrite handleClients_nil. simpl. rewrite Hid. flatten_trace.
  split_and!; try done. by rewrite fn_lookup_insert.
Qed.

Lemma frame_after_closeRequest_dropped_witness :
  let t := Sample.one SpecClient.fresh in
  ChannelOpen t = true ∧
  frame_invariant (Frame.closeRequest "c1") = true ∧
  Clients t !! "c1" = Some 1%positive ∧
  Clients (handleClients [Frame.closeRequest "c1"; Frame.closeAck "c1"] t)
    = delete "c1" (Clients t).
Proof.
  split; [reflexivity|]. split; [reflexivity|]. split; [reflexivity|].
  apply (frame_after_closeRequest_dropped
           (Frame.closeRequest "c1") (Frame.closeAck "c1")
           (Sample.one SpecClient.fresh) 1%positive);
    reflexivity.
Defined.

(** X6. After a failed write the connection stays registered, and when the
    terminated object reports [IsDead], the next data frame for it is
    discarded without a second [Write]: the dispatcher only asks [IsDead]
    again. *)
Theorem data_after_write_failure_discarded `{ClientOps C}
    (msg next : DataMessage) (t : tunnel C) (client : loc)
    (c' : C) (e : string) :
  ChannelOpen t = true →
  data_frame msg = true →
  Clients t !! ClientId msg = Some client →
  IsDead (heap t client) = false →
  Write (Data msg) (heap t client) = (c', Some e) →
  IsDead (NotifyEOF true (Terminate c')) = true →
  data_frame next = true →
  ClientId next = ClientId msg →
  let t' := handleClients [msg; next] t in
  trace t' = trace t ++ [EvLock; EvLookup (ClientId msg);
                         EvCall client mIsDead;
                         EvCall client (mWrite (Data msg));
                         EvCall client mTerminate;
                         EvCall client (mNotifyEOF true);
                         EvLog Error ["Error Writing: %s\n"; e]; EvUnlock;
                         EvLock; EvLookup (ClientId msg);
                         EvCall client mIsDead; EvUnlock] ∧
  heap t' client = NotifyEOF true (Terminate c') ∧
  Clients t' = Clients t.
Proof.
  intros Hopen Hdata Hl Hdead Hw Hdead' Hdata' Hid t'. subst t'.
  unfold data_frame in Hdata, Hdata'.
  destruct (KeepAlive msg) eqn:HK, (CloseClient msg) eqn:HC,
    (DeadClient msg) eqn:HD; try discriminate.
  destruct (KeepAlive next) eqn:HK', (CloseClient next) eqn:HC',
    (DeadClient next) eqn:HD'; try discriminate.
  rewrite handleClients_cons by done.
  rewrite (body_data_write msg t client c' (Some e)) by done.
  rewrite handleClients_cons by done.
  rewrite (body_data_dead next _ client); try done.
  - rewrite handleClients_nil. simpl. rewrite Hid. flatten_trace.
    split_and!; try done. by rewrite !fn_lookup_insert.
  - simpl. by rewrite Hid.
  - simpl. by rewrite !fn_lookup_insert.
Qed.

Lemma data_after_write_failure_discarded_witness :
  let t := Sample.one SpecClient.broken in
  let msg := Frame.data "c1" Sample.PING in
  ChannelOpen t = true ∧ data_frame msg = true ∧
  Clients t !! ClientId msg = Some 1%positive ∧
  IsDead (heap t 1%positive) = false ∧
  Write (Data msg) (heap t 1%positive)
    = (SpecClient.broken, Some "WriteError") ∧
  IsDead (NotifyEOF true (Terminate SpecClient.broken)) = true ∧
  Clients (handleClients [msg; msg] t) = Clients t.
Proof.
  split; [reflexivity|]. split; [reflexivity|]. split; [reflexivity|].
  split; [reflexivity|]. split; [reflexivity|]. split; [reflexivity|].
  apply (data_after_write_failure_discarded
           (Frame.data "c1" Sample.PING) (Frame.data "c1" Sample.PING)
           (Sample.one SpecClient.broken) 1%positive SpecClient.broken
           "WriteError");
    reflexivity.
Defined.

(** * Properties of the accept loop *)

(** Runs an iteration of the accept loop by value. *)
Ltac run_accept :=
  cbv [exec Run_accept_body NewClient Clients_insert Logger emit
       mbind mret M_bind M_ret ChannelOpen Clients heap trace fst snd].

Section Accept.
Context {C : Type} `{!ClientOps C}.
Implicit Types (t : tunnel C) (client : loc) (obj : C).

Lemma accept_body_accepted addr client obj Id t :
  Run_accept_body (Accepted addr client obj Id) t =
    (true,
     mkTunnel (ChannelOpen t) (<[Id := client]> (Clients t))
       (<[client := obj]> (heap t))
       (trace t ++ [EvLog Debug ["New connection from "; addr];
                    EvNewClient client; EvInsert Id client;
                    EvGo "ReadFromClientToChannel"])
         (has_sshClient t) (has_sshSession t)).
Proof. run_accept. by flatten_trace. Qed.

Lemma accept_body_error e t :
  Run_accept_body (AcceptErr e) t =
    (false,
     mkTunnel (ChannelOpen t) (Clients t) (heap t)
       (trace t ++ [EvLog Fatal ["Error in conncetion accept: %s"; e]])
         (has_sshClient t) (has_sshSession t)).
Proof. by run_accept. Qed.

Lemma lock_free_app (p : event → bool) (held : bool) (es1 es2 : list event) :
  lock_free p held (es1 ++ es2)
    = lock_free p held es1 && lock_free p (held_after held es1) es2.
Proof.
  revert held. induction es1 as [|e es1 IH]; intros held; [done|].
  destruct e; simpl; rewrite IH; by rewrite ?andb_assoc.
Qed.

End Accept.

(** X7. A connection accepted by the loop is the one the dispatcher reaches:
    after the acceptance the registry binds the identifier of the new client
    to it, and a data frame for that identifier handled next is written to
    the new object. *)
Theorem accepted_then_dispatched `{ClientOps C}
    (addr Id : string) (client : loc) (obj c' : C) (payload : list byte)
    (t : tunnel C) :
  IsDead obj = false →
  Write payload obj = (c', None) →
  let t1 := exec (Run_accept_body (Accepted addr client obj Id)) t in
  let t2 := exec (handleClients_body (Frame.data Id payload)) t1 in
  Clients t1 !! Id = Some client ∧
  heap t1 client = obj ∧
  (∀ id, id ≠ Id → Clients t1 !! id = Clients t !! id) ∧
  heap t2 client = c' ∧
  Clients t2 = Clients t1 ∧
  trace t2 = trace t ++ [EvLog Debug ["New connection from "; addr];
                         EvNewClient client; EvInsert Id client;
                         EvGo "ReadFromClientToChannel";
                         EvLock; EvLookup Id; EvCall client mIsDead;
                         EvCall client (mWrite payload); EvUnlock].
Proof.
  intros Hlive Hw. cbv zeta.
  assert (Hacc : exec (Run_accept_body (Accepted addr client obj Id)) t =
                 mkTunnel (ChannelOpen t) (<[Id := client]> (Clients t))
                   (<[client := obj]> (heap t))
                   (trace t ++ [EvLog Debug ["New connection from "; addr];
                                EvNewClient client; EvInsert Id client;
                                EvGo "ReadFromClientToChannel"])
                     (has_sshClient t) (has_sshSession t)).
  { unfold exec. by rewrite accept_body_accepted. }
  rewrite Hacc.
  rewrite (body_data_write (Frame.data Id payload) _ client c' None).
  - simpl. flatten_trace. rewrite !fn_lookup_insert.
    split_and!; try done.
    + apply lookup_insert_eq.
    + intros id Hne. by rewrite lookup_insert_ne.
  - done.
  - done.
  - done.
  - simpl. apply lookup_insert_eq.
  - simpl. by rewrite fn_lookup_insert.
  - simpl. by rewrite fn_lookup_insert.
Qed.

Lemma accepted_then_dispatched_witness :
  IsDead SpecClient.fresh = false ∧
  Write Sample.PING SpecClient.fresh
    = (SpecClient.mkClient SpecClient.active true true Sample.PING None,
       None) ∧
  Clients (exec (Run_accept_body
                   (Accepted "10.0.0.7:5050" 7%positive SpecClient.fresh
                             "10.0.0.7:5050"))
                Sample.empty_tunnel) !! "10.0.0.7:5050"
    = Some 7%positive.
Proof.
  split; [reflexivity|]. split; [reflexivity|].
  apply (accepted_then_dispatched
           "10.0.0.7:5050" "10.0.0.7:5050" 7%positive SpecClient.fresh
           (SpecClient.mkClient SpecClient.active true true Sample.PING None)
           Sample.PING Sample.empty_tunnel);
    reflexivity.
Defined.

(** X8. Accepting a connection whose identifier is already registered
    replaces the entry: the identifier is bound to the new client, the
    registry does not grow, and the connection that was bound before is
    neither closed nor terminated, its object being left as it was. *)
Theorem accept_replaces_same_id `{ClientOps C}
    (addr Id : string) (old client : loc) (obj : C) (t : tunnel C) :
  Clients t !! Id = Some old →
  old ≠ client →
  let t' := exec (Run_accept_body (Accepted addr client obj Id)) t in
  Clients t' !! Id = Some client ∧
  size (Clients t') = size (Clients t) ∧
  heap t' old = heap t old ∧
  trace t' = trace t ++ [EvLog Debug ["New connection from "; addr];
                         EvNewClient client; EvInsert Id client;
                         EvGo "ReadFromClientToChannel"].
Proof.
  intros Hold Hne t'. subst t'. unfold exec.
  rewrite accept_body_accepted. cbn [snd]. simpl.
  split_and!; try done.
  - apply lookup_insert_eq.
  - rewrite <- (insert_id (Clients t) Id old Hold) at 2.
    rewrite <- (insert_delete_eq (Clients t)).
    rewrite <- (insert_delete_eq (Clients t) Id old).
    rewrite !map_size_insert_None by apply lookup_delete_eq. done.
  - by rewrite fn_lookup_insert_ne.
Qed.

Lemma accept_replaces_same_id_witness :
  let t := Sample.one SpecClient.half_closed in
  Clients t !! "c1" = Some 1%positive ∧ 1%positive ≠ 2%positive ∧
  Clients (exec (Run_accept_body
                   (Accepted "c1" 2%positive SpecClient.fresh "c1")) t)
    !! "c1" = Some 2%positive.
Proof.
  split; [reflexivity|]. split; [discriminate|].
  apply (accept_replaces_same_id "c1" "c1" 1%positive 2%positive
                                 SpecClient.fresh
                                 (Sample.one SpecClient.half_closed));
    [reflexivity | discriminate].
Defined.

(** X9. The accept loop never takes the registry lock: along any run, every
    insertion into the registry is made while the lock is not held, and the
    loop performs no lock operation at all. *)
Theorem accept_loop_never_locks `{ClientOps C}
    (accepts : list (accept_result C)) (t : tunnel C) :
  ∃ es, trace (Run_accept_loop accepts t) = trace t ++ es ∧
        lock_free is_mutation false es = true ∧
        held_after true es = true ∧
        held_after false es = false.
Proof.
  revert t. induction accepts as [|r rest IH]; intros t; simpl.
  - exists []. rewrite app_nil_r. by destruct (ChannelOpen t).
  - destruct (ChannelOpen t) eqn:Hopen.
    2: { exists []. by rewrite app_nil_r. }
    destruct r as [e|addr client obj Id].
    + rewrite accept_body_error. by eexists.
    + rewrite accept_body_accepted.
      destruct (IH (mkTunnel (ChannelOpen t) (<[Id := client]> (Clients t))
                      (<[client := obj]> (heap t))
                      (trace t ++ [EvLog Debug ["New connection from "; addr];
                                   EvNewClient client; EvInsert Id client;
                                   EvGo "ReadFromClientToChannel"])
                        (has_sshClient t) (has_sshSession t)))
        as (es & -> & Hfree & Hheld & Hheld').
      simpl. eexists. rewrite <- (assoc_L (++)). split; [reflexivity|].
      rewrite lock_free_app, !held_after_app. simpl. by rewrite Hfree.
Qed.

(** X10. The accept loop only adds to the registry: every identifier
    registered before a run is still registered after it. *)
Theorem accept_loop_keeps_identifiers `{ClientOps C}
    (accepts : list (accept_result C)) (t : tunnel C) :
  dom (Clients t) ⊆ dom (Clients (Run_accept_loop accepts t)).
Proof.
  revert t. induction accepts as [|r rest IH]; intros t; simpl.
  - by destruct (ChannelOpen t).
  - destruct (ChannelOpen t); [|done].
    destruct r as [e|addr client obj Id].
    + by rewrite accept_body_error.
    + rewrite accept_body_accepted. etrans; [|apply IH]. simpl.
      rewrite dom_insert_L. set_solver.
Qed.

(** * Further properties of the shutdown *)

(** X11. [onExit] escalates only on a timeout: when the first wait takes the
    closure notification no signal is sent and the timeout warning is not
    logged, and when the second wait takes it the session is not closed by
    force and neither error line is logged. *)
Theorem shutdown_without_escalation `{ClientOps C}
    (o1 o2 : select_outcome) (t : tunnel C) :
  ∃ es,
    trace (exec (onExit o1 o2) t) = trace t ++ es ∧
    (o1 = Closure →
     count_ev (is_signal SIGTERM) es = 0 ∧ count_ev is_warning es = 0) ∧
    (o2 = Closure →
     count_ev is_session_close es = 0 ∧
     count_ev (is_log ["Remote process don't respond. Force close channel."])
              es = 0 ∧
     count_ev (is_log ["IMPORTANT: This might leave files in remote host."])
              es = 0).
Proof.
  destruct t as [open clients store events [] []];
    destruct o1, o2; run_M; flatten_trace;
    (eexists; split; [reflexivity|]); split_and!; try done.
Qed.

Lemma shutdown_without_escalation_witness :
  ∃ es,
    trace (exec (onExit Closure Closure) Sample.empty_tunnel)
      = trace Sample.empty_tunnel ++ es ∧
    count_ev (is_signal SIGTERM) es = 0 ∧
    count_ev is_session_close es = 0.
Proof.
  destruct (shutdown_without_escalation Closure Closure Sample.empty_tunnel)
    as (es & Htr & Hsig & Hclose).
  exists es. split; [exact Htr|]. split.
  - exact (proj1 (Hsig eq_refl)).
  - exact (proj1 (Hclose eq_refl)).
Defined.

(** X12. Run on a tunnel whose SSH client and session are set, [onExit]
    never panics: whatever the two waits take, it restores the terminal and
    terminates the forwarder before it waits, waits exactly twice, and ends
    by closing the SSH client and then the listener, once each. *)
Theorem shutdown_always_releases `{ClientOps C}
    (o1 o2 : select_outcome) (t : tunnel C) :
  has_sshClient t = true →
  has_sshSession t = true →
  (onExit o1 o2 t).1 = true ∧
  ∃ mid,
    trace (exec (onExit o1 o2) t) =
      trace t
        ++ [EvTermiosRestore; EvForwarderTerminate;
            EvLog Notice ["Waiting to remote process to clean up..."]]
        ++ mid ++ [EvSshClientClose; EvListenerClose] ∧
    count_ev is_select mid = 2 ∧
    count_ev is_client_close mid = 0 ∧
    count_ev is_listener_close mid = 0.
Proof.
  destruct t as [open clients store events client session].
  cbn [has_sshSession has_sshClient]. intros -> ->.
  destruct o1, o2; run_M; flatten_trace; (split; [reflexivity|]);
    match goal with
    | |- ∃ mid, _ ++ _ :: _ :: _ :: ?L = _ ∧ _ =>
        exists (take (length L - 2) L)
    end; split_and!; reflexivity.
Qed.

Lemma shutdown_always_releases_witness :
  has_sshClient (Sample.one SpecClient.fresh) = true ∧
  has_sshSession (Sample.one SpecClient.fresh) = true ∧
  (onExit Closure Timeout (Sample.one SpecClient.fresh)).1 = true.
Proof.
  split; [reflexivity|]. split; [reflexivity|].
  apply (shutdown_always_releases Closure Timeout
                                  (Sample.one SpecClient.fresh));
    reflexivity.
Defined.



(** * Further properties of the opening functions *)

Lemma contains_colon_default (s : string) :
  strings_Contains (s +:+ ":22") ":" = true.
Proof.
  unfold strings_Contains.
  induction s as [|a s IH]; [reflexivity|].
  change (String a s +:+ ":22") with (String a (s +:+ ":22")).
  destruct (String.index 0 ":" (s +:+ ":22")) as [n|] eqn:Hn;
    [|discriminate IH].
  change (String.index 0 ":" (String a (s +:+ ":22"))) with
    (if String.prefix ":" (String a (s +:+ ":22")) then Some 0
     else match String.index 0 ":" (s +:+ ":22") with
          | Some n => Some (S n)
          | None => None
          end).
  rewrite Hn. by destruct (String.prefix ":" (String a (s +:+ ":22"))).
Qed.

(** X13. The address that [getRemoteHost] gives to the dial always contains
    a colon: a configured host that has one is returned as it is, and
    otherwise the default port [":22"] is appended. *)
Theorem getRemoteHost_has_port `{ClientOps C} (w : world) (t : tunnel C) :
  let configured := RemoteHost (viper w) in
  let remoteHost := (getRemoteHost w t).1 in
  strings_Contains remoteHost ":" = true ∧
  remoteHost = (if strings_Contains configured ":" then configured
                else configured +:+ ":22").
Proof.
  cbv zeta. unfold getRemoteHost, Logger, emit, mbind, mret, M_bind, M_ret.
  cbn [fst].
  destruct (strings_Contains (RemoteHost (viper w)) ":") eqn:Hc;
    cbn [negb]; split; try done.
  apply contains_colon_default.
Qed.

(** Splits on the results of the environment in the order in which an
    opening function meets them, after the function has been run by value. *)
Ltac split_world :=
  repeat match goal with
         | |- context [match ?x with _ => _ end] =>
             is_var x; destruct x; cbv beta iota zeta
         end.

(** X14. When the session cannot be created, [uploadForwarder] does not
    return its error: the deferred [Close], registered before the error is
    tested, runs on the [nil] session and panics, with nothing opened, run
    or closed.  When the session is created, the function always returns and
    closes the session as its last action, once; it runs the upload command
    only when the executable was opened, and its result is [nil] only when
    the command ran without error. *)
Theorem uploadForwarder_closes_session `{ClientOps C}
    (w : world) (remoteAgentPath : string) (t : tunnel C) :
  match upload_NewSession_err w with
  | Some _ =>
      uploadForwarder w remoteAgentPath t =
        (Panics,
         mkTunnel (ChannelOpen t) (Clients t) (heap t)
           (trace t ++ [EvNewSession uploadSession])
           (has_sshClient t) (has_sshSession t))
  | None =>
      ∃ err pre,
        uploadForwarder w remoteAgentPath t =
          (Returns err,
           mkTunnel (ChannelOpen t) (Clients t) (heap t)
             (trace t ++ [EvNewSession uploadSession] ++ pre
                      ++ [EvSessionClose uploadSession])
             (has_sshClient t) (has_sshSession t)) ∧
        count_ev (is_close_of uploadSession) pre = 0 ∧
        count_ev (is_run_of uploadSession) pre
          = (if is_nil (Open_err w) then 1 else 0) ∧
        (err = None ↔ Open_err w = None ∧ upload_Run_err w = None)
  end.
Proof.
  destruct w as [cfg exe cur typed esc rf pk dial uns op urun ns sin sout
                   run recv].
  run_open. cbn [is_nil andb].
  destruct uns as [e1|]; [reflexivity|].
  destruct op as [e2|]; cbv beta iota zeta; flatten_trace; eexists;
    match goal with
    | |- ∃ pre, (_, mkTunnel _ _ _ (_ ++ _ :: ?L) _ _) = _ ∧ _ =>
        exists (take (length L - 1) L)
    end; (split; [reflexivity|]); (split; [reflexivity|]);
    (split; [reflexivity|]).
  - split; [discriminate | intros [? _]; discriminate].
  - split; [by intros -> | by intros [_ ->]].
Qed.

(** Splits the environment of [openTunnel] along the order in which the
    function meets it, so that each goal left is one path of the function,
    and runs the function on that path. *)
Ltac open_paths w verboseLevel :=
  destruct w as [cfg exe cur typed esc rf pk dial uns op urun ns sin sout
                   run recv];
  unfold established, exec, openTunnel, getPublicKey, getPassword,
    getUsername;
  cbn [viper user_Current ReadFile_err ParsePrivateKey_err Dial_err
       upload_NewSession_err Open_err upload_Run_err NewSession_err
       StdinPipe_err StdoutPipe_err closure_received];
  (destruct (String.eqb (PrivateKey cfg) ""); [|destruct rf; [|destruct pk]]);
  destruct (String.eqb (Password cfg) "");
  (destruct (String.eqb (User cfg) ""); [destruct cur|]);
  (destruct dial; [|destruct uns; [|destruct op; [|destruct urun;
     [|destruct ns; [|destruct sin; [|destruct sout;
        [|destruct (verboseLevel <? 0)%Z; [|destruct recv]]]]]]]]);
  run_open; cbn [is_nil andb orb negb].

(** X15. When a step that precedes the remote command fails, [openTunnel]
    leaves [ChannelOpen] as it was, sends no closure notification, never
    runs the agent on the remote host, and does not stay blocked: it returns
    an error other than ["Remote process is dead"], exits or panics. *)
Theorem openTunnel_failure_keeps_channel `{ClientOps C}
    (w : world) (verboseLevel : Z) (t : tunnel C) :
  established w = false →
  ChannelOpen (exec (openTunnel w verboseLevel) t) = ChannelOpen t ∧
  (openTunnel w verboseLevel t).1 ≠ Blocks ∧
  (openTunnel w verboseLevel t).1 ≠ Returns (Some "Remote process is dead") ∧
  ∃ es,
    trace (exec (openTunnel w verboseLevel) t) = trace t ++ es ∧
    count_ev is_notify_closure es = 0 ∧
    count_ev (is_run_of sshSession) es = 0.
Proof.
  open_paths w verboseLevel;
    (intros Hest; try discriminate Hest);
    (split; [reflexivity|]); (split; [discriminate|]);
    (split; [discriminate|]);
    rewrite <- ?(assoc_L (++));
    first [ by eexists | exists []; by rewrite app_nil_r ].
Qed.

(** X16. [openTunnel] releases what it opened before it returns: on every
    path that returns, each session that was requested has been closed once,
    the SSH client has been closed once when the dial succeeded and not at
    all when it failed, and the client is closed after the sessions. *)
Theorem openTunnel_releases_on_return `{ClientOps C}
    (w : world) (verboseLevel : Z) (t : tunnel C) (err : error) :
  (openTunnel w verboseLevel t).1 = Returns err →
  ∃ es,
    trace (exec (openTunnel w verboseLevel) t) = trace t ++ es ∧
    count_ev (is_close_of uploadSession) es
      = count_ev (is_new_session_of uploadSession) es ∧
    count_ev (is_close_of sshSession) es
      = count_ev (is_new_session_of sshSession) es ∧
    count_ev is_client_close es = (if is_nil (Dial_err w) then 1 else 0) ∧
    count_ev is_dial es = 1 ∧
    (is_nil (Dial_err w) = true → last es = Some EvSshClientClose).
Proof.
  revert err. open_paths w verboseLevel;
    (intros err Hret; try discriminate Hret); clear Hret;
    rewrite <- ?(assoc_L (++));
    (eexists; split; [reflexivity|]); split_and!; try reflexivity;
    by intros.
Qed.

Lemma openTunnel_releases_on_return_witness :
  (openTunnel Sample.calm 0 Sample.empty_tunnel).1
    = Returns (Some "Remote process is dead") ∧
  ∃ es,
    trace (exec (openTunnel Sample.calm 0) Sample.empty_tunnel)
      = trace Sample.empty_tunnel ++ es ∧
    count_ev is_client_close es = 1 ∧
    last es = Some EvSshClientClose.
Proof.
  split; [reflexivity|].
  destruct (openTunnel_releases_on_return
              Sample.calm 0 Sample.empty_tunnel
              (Some "Remote process is dead") eq_refl)
    as (es & Htr & _ & _ & Hclose & _ & Hlast).
  exists es. split; [exact Htr|]. split; [exact Hclose|].
  exact (Hlast eq_refl).
Defined.

Lemma openTunnel_failure_keeps_channel_witness :
  let w := {| viper := Sample.quiet_config; os_Executable := "";
              user_Current := Some "Alice"; ReadPassword := "";
              EscapeBashArgument := λ s, s;
              ReadFile_err := None; ParsePrivateKey_err := None;
              Dial_err := Some "connection refused";
              upload_NewSession_err := None; Open_err := None;
              upload_Run_err := None; NewSession_err := None;
              StdinPipe_err := None; StdoutPipe_err := None;
              Run_err := None; closure_received := true |} in
  established w = false ∧
  ChannelOpen (exec (openTunnel w 0) Sample.empty_tunnel) = true.
Proof.
  split; [reflexivity|].
  apply (openTunnel_failure_keeps_channel
           {| viper := Sample.quiet_config; os_Executable := "";
              user_Current := Some "Alice"; ReadPassword := "";
              EscapeBashArgument := λ s, s;
              ReadFile_err := None; ParsePrivateKey_err := None;
              Dial_err := Some "connection refused";
              upload_NewSession_err := None; Open_err := None;
              upload_Run_err := None; NewSession_err := None;
              StdinPipe_err := None; StdoutPipe_err := None;
              Run_err := None; closure_received := true |}
           0 Sample.empty_tunnel).
  reflexivity.
Defined.

(** X17. [openTransparentTunnel] given no command panics before it starts
    anything.  When the command it runs ends with an error, it returns that
    error behind ["Run transparent command error: "], leaves [ChannelOpen] as
    it was and sends no closure notification. *)
Theorem openTransparentTunnel_command_error `{ClientOps C}
    (w : world) (cmd : list string) (t : tunnel C) (e : string) :
  openTransparentTunnel w [] t = (Panics, t) ∧
  (cmd ≠ [] → Run_err w = Some e →
   (openTransparentTunnel w cmd t).1
     = Returns (Some ("Run transparent command error: " +:+ e)) ∧
   ChannelOpen (exec (openTransparentTunnel w cmd) t) = ChannelOpen t ∧
   ∃ es,
     trace (exec (openTransparentTunnel w cmd) t) = trace t ++ es ∧
     count_ev is_notify_closure es = 0).
Proof.
  split; [reflexivity|].
  intros Hcmd Hrun. destruct cmd as [|argv0 args]; [done|].
  unfold exec, openTransparentTunnel. rewrite Hrun. run_open.
  split_and!; try reflexivity.
  rewrite <- ?(assoc_L (++)). by eexists.
Qed.

Lemma openTransparentTunnel_command_error_witness :
  let w := {| viper := Sample.quiet_config; os_Executable := "";
              user_Current := None; ReadPassword := "";
              EscapeBashArgument := λ s, s;
              ReadFile_err := None; ParsePrivateKey_err := None;
              Dial_err := None;
              upload_NewSession_err := None; Open_err := None;
              upload_Run_err := None; NewSession_err := None;
              StdinPipe_err := None; StdoutPipe_err := None;
              Run_err := Some "exit status 1"; closure_received := true |} in
  ["sh"] ≠ [] ∧ Run_err w = Some "exit status 1" ∧
  ChannelOpen (exec (openTransparentTunnel w ["sh"]) Sample.empty_tunnel)
    = true.
Proof.
  split; [discriminate|]. split; [reflexivity|].
  apply (openTransparentTunnel_command_error
           {| viper := Sample.quiet_config; os_Executable := "";
              user_Current := None; ReadPassword := "";
              EscapeBashArgument := λ s, s;
              ReadFile_err := None; ParsePrivateKey_err := None;
              Dial_err := None;
              upload_NewSession_err := None; Open_err := None;
              upload_Run_err := None; NewSession_err := None;
              StdinPipe_err := None; StdoutPipe_err := None;
              Run_err := Some "exit status 1"; closure_received := true |}
           ["sh"] Sample.empty_tunnel "exit status 1");
    [discriminate | reflexivity].
Defined.

(** X18. While no goroutine takes the closure notification, an opening
    function whose remote command has ended stays blocked on the send:
    [ChannelOpen] is already [false], the notification has not been
    delivered, and for [openTunnel] neither the session nor the SSH client
    has been closed. *)
Theorem open_blocks_until_notification_taken `{ClientOps C}
    (w : world) (verboseLevel : Z) (cmd : list string) (t : tunnel C) :
  closure_received w = false →
  (established w = true → (verboseLevel <? 0)%Z = false →
   (openTunnel w verboseLevel t).1 = Blocks ∧
   ChannelOpen (exec (openTunnel w verboseLevel) t) = false ∧
   ∃ es,
     trace (exec (openTunnel w verboseLevel) t) = trace t ++ es ∧
     count_ev is_notify_closure es = 0 ∧
     count_ev (is_close_of sshSession) es = 0 ∧
     count_ev is_client_close es = 0) ∧
  (cmd ≠ [] → Run_err w = None →
   (openTransparentTunnel w cmd t).1 = Blocks ∧
   ChannelOpen (exec (openTransparentTunnel w cmd) t) = false ∧
   ∃ es,
     trace (exec (openTransparentTunnel w cmd) t) = trace t ++ es ∧
     count_ev is_notify_closure es = 0).
Proof.
  intros Hrecv. split.
  - revert Hrecv. open_paths w verboseLevel;
      (intros Hrecv Hest Hneg; try discriminate);
      (split; [reflexivity|]); (split; [reflexivity|]);
      rewrite <- ?(assoc_L (++)); by eexists.
  - intros Hcmd Hrun. destruct cmd as [|argv0 args]; [done|].
    unfold exec, openTransparentTunnel, send_NotifyClosure.
    rewrite Hrun, Hrecv. run_open.
    split_and!; try reflexivity.
    rewrite <- ?(assoc_L (++)). by eexists.
Qed.

Lemma open_blocks_until_notification_taken_witness :
  let w := {| viper := Sample.quiet_config; os_Executable := "";
              user_Current := Some "Alice"; ReadPassword := "";
              EscapeBashArgument := λ s, s;
              ReadFile_err := None; ParsePrivateKey_err := None;
              Dial_err := None;
              upload_NewSession_err := None; Open_err := None;
              upload_Run_err := None; NewSession_err := None;
              StdinPipe_err := None; StdoutPipe_err := None;
              Run_err := None; closure_received := false |} in
  closure_received w = false ∧ established w = true ∧
  (0 <? 0)%Z = false ∧ ["sh"] ≠ [] ∧ Run_err w = None ∧
  (openTunnel w 0 Sample.empty_tunnel).1 = Blocks ∧
  (openTransparentTunnel w ["sh"] Sample.empty_tunnel).1 = Blocks.
Proof.
  destruct (open_blocks_until_notification_taken
              {| viper := Sample.quiet_config; os_Executable := "";
                 user_Current := Some "Alice"; ReadPassword := "";
                 EscapeBashArgument := λ s, s;
                 ReadFile_err := None; ParsePrivateKey_err := None;
                 Dial_err := None;
                 upload_NewSession_err := None; Open_err := None;
                 upload_Run_err := None; NewSession_err := None;
                 StdinPipe_err := None; StdoutPipe_err := None;
                 Run_err := None; closure_received := false |}
              0 ["sh"] Sample.empty_tunnel eq_refl) as [Hssh Hcmd].
  split; [reflexivity|]. split; [reflexivity|]. split; [reflexivity|].
  split; [discriminate|]. split; [reflexivity|]. split.
  - exact (proj1 (Hssh eq_refl eq_refl)).
  - exact (proj1 (Hcmd ltac:(discriminate) eq_refl)).
Defined.

(** * The dispatcher on a new tunnel *)

Lemma dispatcher_on_empty_registry `{ClientOps C}
    (InChannel : list DataMessage) (t : tunnel C) :
  ChannelOpen t = true →
  Clients t = ∅ →
  let t' := handleClients InChannel t in
  Clients t' = ∅ ∧ heap t' = heap t ∧
  count_ev is_client_call (trace t') = count_ev is_client_call (trace t) ∧
  count_ev is_warning (trace t')
    = count_ev is_warning (trace t)
      + length (List.filter (λ msg, negb (KeepAlive msg)) InChannel).
Proof.
  revert t. induction InChannel as [|msg rest IH]; intros t Hopen Hempty.
  - cbv zeta. rewrite handleClients_nil. simpl. split_and!; try done; lia.
  - cbv zeta. rewrite handleClients_cons by done.
    destruct (KeepAlive msg) eqn:HK.
    + rewrite (body_keepAlive msg t HK). simpl. rewrite HK. simpl.
      by apply IH.
    + assert (Hl : Clients t !! ClientId msg = None)
        by (rewrite Hempty; apply lookup_empty).
      rewrite (body_unknown msg t HK Hl).
      edestruct (IH (mkTunnel (ChannelOpen t) (Clients t) (heap t)
                       (trace t ++ [EvLock; EvLookup (ClientId msg);
                                    EvLog Warning
                                      ["Received data from closed client";
                                       ClientId msg];
                                    EvUnlock])
                       (has_sshClient t) (has_sshSession t)))
        as (Hc & Hh & Hcalls & Hwarn); [done | done |].
      simpl in *. rewrite HK. simpl.
      rewrite Hc, Hh, Hcalls, Hwarn, !count_ev_app. simpl.
      split_and!; try done; lia.
Qed.

(** X19. On a tunnel just made by [newTunnel] or [newTransparentTunnel],
    before any connection is accepted, the dispatcher drops whatever arrives:
    the registry stays empty, no object is touched and no client method is
    called, and one warning is logged for each frame that is not a
    keepAlive. *)
Theorem dispatcher_on_new_tunnel `{ClientOps C}
    (store : loc → C) (t : tunnel C) (InChannel : list DataMessage) :
  t = newTunnel store ∨ t = newTransparentTunnel store →
  let t' := handleClients InChannel t in
  Clients t' = ∅ ∧ heap t' = store ∧
  count_ev is_client_call (trace t') = 0 ∧
  count_ev is_warning (trace t')
    = length (List.filter (λ msg, negb (KeepAlive msg)) InChannel).
Proof.
  intros [-> | ->];
    apply (dispatcher_on_empty_registry InChannel (mkTunnel true ∅ store []
                                                       false false));
    reflexivity.
Qed.

Lemma dispatcher_on_new_tunnel_witness :
  let t := newTunnel (λ _, SpecClient.fresh) in
  (t = newTunnel (λ _, SpecClient.fresh)
   ∨ t = newTransparentTunnel (λ _, SpecClient.fresh)) ∧
  count_ev is_warning
    (trace (handleClients [Frame.keepAlive; Frame.data "c1" Sample.PING;
                           Frame.closeAck "c1"] t)) = 2.
Proof.
  split; [by left|].
  apply (dispatcher_on_new_tunnel
           (λ _, SpecClient.fresh) (newTunnel (λ _, SpecClient.fresh))
           [Frame.keepAlive; Frame.data "c1" Sample.PING;
            Frame.closeAck "c1"]).
  by left.
Defined.
